(** * Summary statistics and date alignment of [scripts/paper/figures.py]

    A shallow embedding of the array reductions and the calendar arithmetic
    that every figure of [figures.py] is built from, together with the
    properties the specification states about them.

    Conventions of the embedding:
    - a Python call that can raise is a value of [result]: [Ok v] or
      [Raise e] with [e] the Python exception class;
    - [int64] arrays (the observed cumulative counts) are lists of [Z] whose
      arithmetic wraps around at 64 bits, as numpy's does;
    - [float64] arrays (posterior draws, percentiles, date numbers) are lists
      of rationals [Q]: arithmetic is exact, there is no rounding and there
      are no [nan] or [inf] entries.  Results on floats are stated up to
      [Qeq];
    - a two-dimensional array indexed [sample, day] is the list of its rows. *)

From Stdlib Require Import ZArith QArith Qround Qabs List Sorted Bool Lia Lqa.
From Stdlib Require String Ascii DecimalString.
Import ListNotations.

Set Implicit Arguments.

(** ** Python exceptions and fallible calls *)

Module Py.

Inductive exn : Type :=
| TypeError
| ValueError
| OverflowError
| IndexError.

Inductive result (A : Type) : Type :=
| Ok (v : A)
| Raise (e : exn).

Arguments Ok {A} v.
Arguments Raise {A} e.

Definition bind {A B : Type} (c : result A) (k : A -> result B) : result B :=
  match c with
  | Ok v => k v
  | Raise e => Raise e
  end.

Definition succeeds {A : Type} (c : result A) : Prop :=
  exists v, c = Ok v.

Definition raises {A : Type} (c : result A) : Prop :=
  exists e, c = Raise e.

(** [try: c  except: h] with a bare [except], which catches everything. *)
Definition try_except {A : Type} (c h : result A) : result A :=
  match c with
  | Ok v => Ok v
  | Raise _ => h
  end.

Fixpoint mapM {A B : Type} (f : A -> result B) (l : list A) : result (list B) :=
  match l with
  | [] => Ok []
  | x :: t =>
      bind (f x) (fun y => bind (mapM f t) (fun ys => Ok (y :: ys)))
  end.

(** [l[i]] for a Python integer index: a negative index counts from the end,
    an index outside [-len, len) raises [IndexError]. *)
Definition getitem {A : Type} (l : list A) (i : Z) : result A :=
  let n := Z.of_nat (length l) in
  let j := (if i <? 0 then i + n else i)%Z in
  if ((0 <=? j) && (j <? n))%Z
  then match nth_error l (Z.to_nat j) with
       | Some v => Ok v
       | None => Raise IndexError
       end
  else Raise IndexError.

(** The bound of a slice, clipped the way Python clips it. *)
Definition slice_bound (len : nat) (i : Z) : nat :=
  let n := Z.of_nat len in
  Z.to_nat (if i <? 0 then Z.max 0 (i + n) else Z.min i n)%Z.

(** [l[:i]] and [l[i:]]; slicing never raises. *)
Definition slice_to {A : Type} (i : Z) (l : list A) : list A :=
  firstn (slice_bound (length l) i) l.

Definition slice_from {A : Type} (i : Z) (l : list A) : list A :=
  skipn (slice_bound (length l) i) l.

(** Rounding to the nearest integer, ties to even. *)
Definition round_half_even (x : Q) : Z :=
  let f := Qfloor x in
  let r := (x - inject_Z f)%Q in
  match (r ?= 1 # 2)%Q with
  | Lt => f
  | Gt => (f + 1)%Z
  | Eq => if Z.even f then f else (f + 1)%Z
  end.

End Py.

Export Py.

Notation "x <- c ;; k" := (bind c (fun x => k))
  (at level 61, c at next level, right associativity).

(** ** numpy: element types and one-dimensional reductions *)

Module Numpy.

(** Two's complement wrap-around of 64-bit integer arithmetic. *)
Definition wrap64 (z : Z) : Z := ((z + 2 ^ 63) mod 2 ^ 64 - 2 ^ 63)%Z.

Definition in_int64 (z : Z) : Prop := (- 2 ^ 63 <= z < 2 ^ 63)%Z.

(** The arithmetic an array's dtype brings with it. *)
Class Dtype (A : Type) : Type := {
  dzero : A;
  dadd : A -> A -> A;
  dsub : A -> A -> A
}.

#[export] Instance int64 : Dtype Z := {
  dzero := 0%Z;
  dadd a b := wrap64 (a + b);
  dsub a b := wrap64 (a - b)
}.

#[export] Instance float64 : Dtype Q := {
  dzero := 0%Q;
  dadd := Qplus;
  dsub := Qminus
}.

Section OneDim.
Context {A : Type} `{Dtype A}.

(** [np.diff(a)]: [out[i] = a[i+1] - a[i]], one element shorter. *)
Fixpoint diff (a : list A) : list A :=
  match a with
  | [] => []
  | x :: t =>
      match t with
      | [] => []
      | y :: _ => dsub y x :: diff t
      end
  end.

(** Running sum continued from an accumulator. *)
Fixpoint cumsum_from (acc : A) (a : list A) : list A :=
  match a with
  | [] => []
  | x :: t => let s := dadd acc x in s :: cumsum_from s t
  end.

(** [np.cumsum(a)]: the first entry is [a[0]] itself. *)
Definition cumsum (a : list A) : list A :=
  match a with
  | [] => []
  | x :: t => x :: cumsum_from x t
  end.

(** [np.insert(a, 0, v)]: [v] placed before index 0. *)
Definition insert0 (v : A) (a : list A) : list A := v :: a.

(** [a + c] with a scalar [c] of the same dtype. *)
Definition add_scalar (a : list A) (c : A) : list A :=
  map (fun x => dadd x c) a.

End OneDim.

(** A float array plus an [int64] scalar: the scalar is converted first. *)
Definition add_int (a : list Q) (c : Z) : list Q :=
  map (fun x => x + inject_Z c)%Q a.

(** [np.arange(start, stop)] on integers. *)
Definition arange (start stop : Z) : list Z :=
  map (fun k => (start + Z.of_nat k)%Z) (seq 0 (Z.to_nat (stop - start))).

(** *** Order statistics *)

Fixpoint insert_sorted (x : Q) (l : list Q) : list Q :=
  match l with
  | [] => [x]
  | y :: t => if Qle_bool x y then x :: l else y :: insert_sorted x t
  end.

(** The ascending order of the entries.  numpy only partitions around the
    indices it reads; the entries it reads are those of the sorted array. *)
Definition sort (a : list Q) : list Q := fold_right insert_sorted [] a.

(** Linear interpolation in a sorted array [ap] at the virtual index
    [indices]: the index below and the fractional part, the index above
    clipped to the last one, and the two entries weighted. *)
Definition lerp_at (ap : list Q) (indices : Q) : Q :=
  let Nx := Z.of_nat (List.length ap) in
  let indices_below := Qfloor indices in
  let indices_above := Z.min (indices_below + 1) (Nx - 1) in
  let weights_above := (indices - inject_Z indices_below)%Q in
  let weights_below := (1 - weights_above)%Q in
  let x1 := (nth (Z.to_nat indices_below) ap 0 * weights_below)%Q in
  let x2 := (nth (Z.to_nat indices_above) ap 0 * weights_above)%Q in
  (x1 + x2)%Q.

(** [np.percentile(a, q)] of a one-dimensional array with the default linear
    interpolation, at the virtual index [q/100 * (n-1)].  [q] outside
    [0, 100] raises [ValueError]; taking from an empty array raises
    [IndexError]. *)
Definition percentile (a : list Q) (q : Q) : result Q :=
  if negb (Qle_bool 0 q && Qle_bool q 100) then Raise ValueError
  else
    match a with
    | [] => Raise IndexError
    | _ :: _ =>
        let Nx := Z.of_nat (List.length a) in
        Ok (lerp_at (sort a) (q / 100 * inject_Z (Nx - 1)))
    end.

(** A numpy float scalar: a number or [nan]. *)
Inductive scalar : Type :=
| Finite (x : Q)
| NaN.

(** [np.median(a)] of a one-dimensional array: the middle entry of the sorted
    array, or the mean of the two middle entries; the mean of an empty slice
    is [nan] (a warning, not an exception). *)
Definition median (a : list Q) : scalar :=
  match a with
  | [] => NaN
  | _ :: _ =>
      let part := sort a in
      let sz := List.length a in
      let szh := Nat.div sz 2 in
      if Nat.even sz
      then Finite ((nth (szh - 1) part 0 + nth szh part 0) / 2)%Q
      else Finite (nth szh part 0)
  end.

(** *** Two-dimensional arrays [sample, day] *)

Definition matrix : Type := list (list Q).

(** All rows have [d] entries. *)
Definition rectangular (d : nat) (M : matrix) : Prop :=
  Forall (fun row => List.length row = d) M.

(** [M[:, j]] *)
Definition column (j : nat) (M : matrix) : list Q :=
  map (fun row => nth j row 0%Q) M.

(** Number of columns of a non-empty array. *)
Definition ncols (M : matrix) : nat :=
  match M with
  | [] => 0
  | row :: _ => List.length row
  end.

(** [M.T] *)
Definition transpose (M : matrix) : matrix :=
  map (fun j => column j M) (seq 0 (ncols M)).

(** [M[:, :n]] and [M[:, n:]] *)
Definition cols_to (n : Z) (M : matrix) : matrix := map (slice_to n) M.

Definition cols_from (n : Z) (M : matrix) : matrix := map (slice_from n) M.

(** [np.insert(M, 0, v, axis=1)] *)
Definition insert0_axis1 (v : Q) (M : matrix) : matrix := map (insert0 v) M.

(** [np.cumsum(M, axis=1)]: along the days of each sample row. *)
Definition cumsum_axis1 (M : matrix) : matrix := map cumsum M.

Fixpoint cumsum_rows_from (acc : list Q) (M : matrix) : matrix :=
  match M with
  | [] => []
  | row :: t =>
      let s := map (fun p => (fst p + snd p)%Q) (combine acc row) in
      s :: cumsum_rows_from s t
  end.

(** [np.cumsum(M, axis=0)]: down the rows, entry by entry. *)
Definition cumsum_axis0 (M : matrix) : matrix :=
  match M with
  | [] => []
  | row :: t => row :: cumsum_rows_from row t
  end.

(** [M + c] with an [int64] scalar [c]. *)
Definition add_int2 (M : matrix) (c : Z) : matrix :=
  map (fun row => add_int row c) M.

(** [np.percentile(M, q=q, axis=0)]: one value per day column. *)
Definition percentile_axis0 (M : matrix) (q : Q) : result (list Q) :=
  mapM (fun j => percentile (column j M) q) (seq 0 (ncols M)).

(** [np.median(M, axis=0)] *)
Definition median_axis0 (M : matrix) : list scalar :=
  map (fun j => median (column j M)) (seq 0 (ncols M)).

(** [np.percentile(M, q=q, axis=-1)] and [np.median(M, axis=-1)]: one value
    per row. *)
Definition percentile_axis_last (M : matrix) (q : Q) : result (list Q) :=
  mapM (fun row => percentile row q) M.

Definition median_axis_last (M : matrix) : list scalar := map median M.

End Numpy.

Export Numpy.

(** ** Python values and [float()] *)

Module PyValue.

Import String Ascii.

(** A Python float: a number, an infinity with its sign, or [nan]. *)
Inductive pyfloat : Type :=
| FNum (x : Q)
| FInf (negative : bool)
| FNan.

(** The values an offset argument can be; [PyArray] is a one-dimensional
    numpy array of numbers. *)
#[warnings="-register-all"]
Inductive pyval : Type :=
| PyNone
| PyBool (b : bool)
| PyInt (z : Z)
| PyFloat (f : pyfloat)
| PyStr (s : string)
| PyList (l : list pyval)
| PyArray (a : list pyfloat).

Definition is_digit (c : ascii) : bool :=
  let n := nat_of_ascii c in (48 <=? n)%nat && (n <=? 57)%nat.

Definition digit_value (c : ascii) : Z := Z.of_nat (nat_of_ascii c - 48).

(** The characters [float()] strips from both ends of its argument. *)
Definition is_space (c : ascii) : bool :=
  let n := nat_of_ascii c in
  ((9 <=? n)%nat && (n <=? 13)%nat) || ((28 <=? n)%nat && (n <=? 32)%nat).

Fixpoint lstrip (l : list ascii) : list ascii :=
  match l with
  | c :: t => if is_space c then lstrip t else l
  | [] => []
  end.

Definition strip (l : list ascii) : list ascii :=
  rev (lstrip (rev (lstrip l))).

Definition to_lower (c : ascii) : ascii :=
  let n := nat_of_ascii c in
  if (65 <=? n)%nat && (n <=? 90)%nat then ascii_of_nat (n + 32) else c.

(** Digits that continue a digit part: a digit, or one underscore followed by
    a digit. *)
Fixpoint digit_tail (l : list ascii) : list ascii * list ascii :=
  match l with
  | c :: t =>
      if is_digit c then
        let (ds, r) := digit_tail t in (c :: ds, r)
      else if Ascii.eqb c "_" then
        match t with
        | d :: _ => if is_digit d then digit_tail t else ([], l)
        | [] => ([], l)
        end
      else ([], l)
  | [] => ([], [])
  end.

(** The longest digit part [digit (["_"] digit)*] at the front, without its
    underscores, and what follows it. *)
Definition digitpart (l : list ascii) : list ascii * list ascii :=
  match l with
  | c :: t =>
      if is_digit c then let (ds, r) := digit_tail t in (c :: ds, r)
      else ([], l)
  | [] => ([], [])
  end.

Definition digits_value (ds : list ascii) : Z :=
  fold_left (fun acc c => (10 * acc + digit_value c)%Z) ds 0%Z.

Definition take_sign (l : list ascii) : bool * list ascii :=
  match l with
  | c :: t =>
      if Ascii.eqb c "-" then (true, t)
      else if Ascii.eqb c "+" then (false, t)
      else (false, l)
  | [] => (false, [])
  end.

(** [m * 10^e] *)
Definition scale10 (m e : Z) : Q :=
  if (0 <=? e)%Z then inject_Z (m * 10 ^ e)
  else (inject_Z m / inject_Z (10 ^ (- e)))%Q.

(** The decimal literal [floatnumber] of the language reference:
    [[digitpart] "." digitpart | digitpart ["."]] with an optional exponent. *)
Definition parse_floatnumber (l : list ascii) : option Q :=
  let (ip, r1) := digitpart l in
  let (fp, r2) :=
    match r1 with
    | c :: r => if Ascii.eqb c "." then digitpart r else ([], r1)
    | [] => ([], r1)
    end in
  match ip, fp with
  | [], [] => None
  | _, _ =>
      let mant := digits_value (ip ++ fp) in
      let shift := Z.of_nat (List.length fp) in
      match r2 with
      | [] => Some (scale10 mant (- shift))
      | c :: r =>
          if Ascii.eqb (to_lower c) "e" then
            let (eneg, r3) := take_sign r in
            match digitpart r3 with
            | (_ :: _ as ed, []) =>
                let e := digits_value ed in
                Some (scale10 mant ((if eneg then - e else e) - shift))
            | _ => None
            end
          else None
      end
  end.

(** [float(s)] for a string: surrounding whitespace is ignored, then a sign
    and [inf], [infinity], [nan] (in any case) or a decimal literal.  The
    decimal value is kept exact. *)
Definition float_of_string (s : string) : result pyfloat :=
  let (neg, body) := take_sign (strip (list_ascii_of_string s)) in
  let low := string_of_list_ascii (map to_lower body) in
  if String.eqb low "inf" || String.eqb low "infinity" then Ok (FInf neg)
  else if String.eqb low "nan" then Ok FNan
  else
    match parse_floatnumber body with
    | Some x => Ok (FNum (if neg then - x else x)%Q)
    | None => Raise ValueError
    end.

(** The built-in [float(v)]; an array converts when it has one entry. *)
Definition float (v : pyval) : result pyfloat :=
  match v with
  | PyNone => Raise TypeError
  | PyBool b => Ok (FNum (if b then 1 else 0))
  | PyInt z => Ok (FNum (inject_Z z))
  | PyFloat f => Ok f
  | PyStr s => float_of_string s
  | PyList _ => Raise TypeError
  | PyArray [x] => Ok x
  | PyArray _ => Raise TypeError
  end.

(** The items [for x in v] visits: the entries of a list, the one-character
    strings of a string; anything else is not iterable. *)
Definition iter (v : pyval) : result (list pyval) :=
  match v with
  | PyList l => Ok l
  | PyStr s =>
      Ok (map (fun c => PyStr (String c EmptyString)) (list_ascii_of_string s))
  | PyArray a => Ok (map PyFloat a)
  | PyNone | PyBool _ | PyInt _ | PyFloat _ => Raise TypeError
  end.

(** An offset that is a number, and one that is a sequence of numbers. *)
Definition is_number (v : pyval) : bool :=
  match v with
  | PyBool _ | PyInt _ | PyFloat _ => true
  | PyNone | PyStr _ | PyList _ | PyArray _ => false
  end.

Definition is_number_sequence (v : pyval) : bool :=
  match v with
  | PyList l => forallb is_number l
  | PyArray _ => true
  | PyNone | PyBool _ | PyInt _ | PyFloat _ | PyStr _ => false
  end.

End PyValue.

Export PyValue.

(** ** [datetime] and [matplotlib.dates] *)

Module Datetime.

(** Microseconds in a day. *)
Definition us_per_day : Z := 86400000000.

(** A [datetime]: microseconds since midnight before proleptic Gregorian
    ordinal 1 (1 January of year 1 has ordinal 1).  A [timedelta]: a signed
    number of microseconds. *)
Definition datetime : Type := Z.
Definition timedelta : Type := Z.

Definition is_leap (year : Z) : bool :=
  ((year mod 4 =? 0) && (negb (year mod 100 =? 0) || (year mod 400 =? 0)))%Z.

Definition days_before_year (year : Z) : Z :=
  let y := (year - 1)%Z in (y * 365 + y / 4 - y / 100 + y / 400)%Z.

Definition days_in_month : list Z :=
  [31; 28; 31; 30; 31; 30; 31; 31; 30; 31; 30; 31]%Z.

Definition days_before_month (year month : Z) : Z :=
  (fold_right Z.add 0 (firstn (Z.to_nat (month - 1)) days_in_month)
   + (if (2 <? month) && is_leap year then 1 else 0))%Z.

Definition ymd2ord (year month day : Z) : Z :=
  (days_before_year year + days_before_month year month + day)%Z.

(** [datetime.datetime(year, month, day)], at midnight. *)
Definition of_ymd (year month day : Z) : datetime :=
  (ymd2ord year month day * us_per_day)%Z.

(** [d.toordinal()] *)
Definition toordinal (d : datetime) : Z := (d / us_per_day)%Z.

(** [date.max.toordinal()], the last day of year 9999. *)
Definition max_ordinal : Z := 3652059.

(** The values a [datetime] can hold: years 1 to 9999. *)
Definition in_range (d : datetime) : bool :=
  ((us_per_day <=? d) && (d <? (max_ordinal + 1) * us_per_day))%Z.

(** [td.days] *)
Definition days (td : timedelta) : Z := (td / us_per_day)%Z.

(** [datetime.timedelta(days=x)]: the duration is rounded to a microsecond;
    [nan] raises [ValueError], an infinity or more than 999999999 days
    raises [OverflowError]. *)
Definition timedelta_of_days (x : pyfloat) : result timedelta :=
  match x with
  | FNan => Raise ValueError
  | FInf _ => Raise OverflowError
  | FNum q =>
      let td := round_half_even (q * inject_Z us_per_day) in
      if (Z.abs (days td) >? 999999999)%Z then Raise OverflowError else Ok td
  end.

(** [td + d] and [d - td]: [OverflowError] when the date leaves the range. *)
Definition add (td : timedelta) (d : datetime) : result datetime :=
  let r := (d + td)%Z in
  if in_range r then Ok r else Raise OverflowError.

Definition sub (d : datetime) (td : timedelta) : result datetime :=
  add (- td)%Z d.

(** [d1 - d2] *)
Definition diff (d1 d2 : datetime) : timedelta := (d1 - d2)%Z.

(** [matplotlib.dates.date2num(d)]: days, as a float, since matplotlib's
    epoch.  [epoch] is the ordinal the number 0 stands for: 0 up to
    matplotlib 3.2, where the number is the ordinal plus the fraction of the
    day, and 719163 (1 January 1970) with the default of later versions. *)
Definition date2num (epoch : Z) (d : datetime) : Q :=
  (inject_Z d / inject_Z us_per_day - inject_Z epoch)%Q.

End Datetime.

(** ** [scripts/paper/figures.py] *)

Module Figures.

Import String Ascii.

(** What [conv_time_to_mpl_dates] returns: one date number or an array. *)
Inductive mplnum : Type :=
| Scalar (x : Q)
| Array (a : list Q).

(** [v + c] for a date number or array [v] and an integer [c]. *)
Definition mpl_add (v : mplnum) (c : Z) : mplnum :=
  match v with
  | Scalar x => Scalar (x + inject_Z c)
  | Array a => Array (add_int a c)
  end.

(** [v[i:]]; a scalar cannot be indexed. *)
Definition mpl_slice_from (i : Z) (v : mplnum) : result (list Q) :=
  match v with
  | Scalar _ => Raise IndexError
  | Array a => Ok (slice_from i a)
  end.

(** [v[i]]; a scalar cannot be indexed. *)
Definition mpl_getitem (i : Z) (v : mplnum) : result Q :=
  match v with
  | Scalar _ => Raise IndexError
  | Array a => getitem a i
  end.

(** A one-dimensional integer array as a value. *)
Definition int_array (a : list Z) : pyval :=
  PyArray (map (fun z => FNum (inject_Z z)) a).

(** *** Global settings *)

Definition date_data_begin : Datetime.datetime := Datetime.of_ymd 2020 3 1.

(** how many days the simulation starts before the data *)
Definition diff_data_sim : Z := 16.

(** how many days to forecast *)
Definition num_days_futu : Z := 28.

(** [date_data_begin - datetime.timedelta(days=diff_data_sim)] *)
Definition date_begin_sim : Datetime.datetime :=
  (date_data_begin - diff_data_sim * Datetime.us_per_day)%Z.

(** The day offsets [n] for which [date_begin_sim] plus [n] days is a date
    a [datetime] can hold. *)
Definition representable (n : Z) : Prop :=
  Datetime.in_range (date_begin_sim + n * Datetime.us_per_day)%Z = true.

(** *** helper *)

(** [n] decimal digits of [z], the lowest last, put before [acc]. *)
Fixpoint digits_fixed (n : nat) (z : Z) (acc : string) : string :=
  match n with
  | O => acc
  | S k =>
      digits_fixed k (z / 10)
        (String (ascii_of_nat (48 + Z.to_nat (z mod 10))) acc)
  end.

(** The decimal numeral of a natural number. *)
Definition decimal (z : Z) : string :=
  DecimalString.NilZero.string_of_uint (N.to_uint (Z.to_N z)).

(** ["{:.{p}f}".format(x)] for a finite [x]: fixed notation with [p] digits
    after the point, the exact value rounded to nearest with ties to even,
    a minus sign for a negative [x], no point when [p] is 0. *)
Definition format_fixed (x : Q) (p : nat) : string :=
  let unit := (10 ^ Z.of_nat p)%Z in
  let scaled := round_half_even (Qabs x * inject_Z unit) in
  let sign := if Qlt_le_dec x 0 then "-"%string else EmptyString in
  let frac :=
    match p with
    | O => EmptyString
    | S _ => String "." (digits_fixed p (scaled mod unit) EmptyString)
    end in
  (sign ++ decimal (scaled / unit) ++ frac)%string.

Definition truncate_number (number : scalar) (precision : nat) : string :=
  match number with
  | Finite x => format_fixed x precision
  | NaN => "nan"%string
  end.

Definition newline : string := String (ascii_of_nat 10) EmptyString.

Definition print_median_CI (arr : list Q) (prec : nat) : result string :=
  let f_trunc := fun n => truncate_number n prec in
  let med := f_trunc (median arr) in
  perc1 <- percentile arr (5 # 2) ;;
  perc2 <- percentile arr (195 # 2) ;;
  Ok ("Median: " ++ med ++ newline
      ++ "CI: [" ++ f_trunc (Finite perc1) ++ ", "
      ++ f_trunc (Finite perc2) ++ "]")%string.

Section Clock.

(** The ordinal matplotlib's date number 0 stands for (see
    [Datetime.date2num]). *)
Variable epoch : Z.

(** [datetime.timedelta(days=float(date)) + date_begin_sim] *)
Definition shift_date (date : pyval) : result Datetime.datetime :=
  x <- float date ;;
  td <- Datetime.timedelta_of_days x ;;
  Datetime.add td date_begin_sim.

Definition conv_time_to_mpl_dates (arr : pyval) : result mplnum :=
  try_except
    (items <- iter arr ;;
     dates <- mapM shift_date items ;;
     Ok (Array (map (Datetime.date2num epoch) dates)))
    (d <- shift_date arr ;;
     Ok (Scalar (Datetime.date2num epoch d))).

(** *** Settings that come from the data source *)

(** The date of the last observation, [cov19.get_last_date(...)]. *)
Variable date_data_end : Datetime.datetime.

(** The observed cumulative counts, [cov19.filter_one_country(...)]. *)
Variable cases_obs : list Z.

(** number of days in the data -1, to match the new cases *)
Definition num_days_data : Z :=
  Datetime.days (Datetime.diff date_data_end date_data_begin).

(** days of simulation until forecast starts *)
Definition diff_to_0 : Z := (num_days_data + diff_data_sim)%Z.

Definition len_cases_obs : Z := Z.of_nat (List.length cases_obs).

(** *** [create_figure_0], total cases of one scenario

    The data of the "TOTAL CASES" panel: the dates and the cumulative fit,
    then, inside the loop over the scenarios, the dates and the cumulative
    forecast with its median and 95% band. *)

Record figure_0_total : Type := {
  f0_mpl_dates : mplnum;
  f0_cum_cases : matrix;
  f0_mpl_dates_fut : mplnum;
  f0_cases_futu : matrix;
  f0_median : list scalar;
  f0_percentiles : list Q * list Q;
  f0_dates_plotted : list Q
}.

Definition create_figure_0_total (new_cases : matrix) : result figure_0_total :=
  let time1 := arange (- len_cases_obs + 2) 1 in
  conv1 <- conv_time_to_mpl_dates (int_array time1) ;;
  let mpl_dates := mpl_add (mpl_add conv1 diff_data_sim) num_days_data in
  let new_cases_past := cols_to num_days_data new_cases in
  first <- getitem cases_obs 0 ;;
  let cum_cases := add_int2 (cumsum_axis1 new_cases_past) first in
  let time2 := arange 0 (num_days_futu + 1) in
  conv2 <- conv_time_to_mpl_dates (int_array time2) ;;
  let mpl_dates_fut := mpl_add (mpl_add conv2 diff_data_sim) num_days_data in
  last <- getitem cases_obs (-1) ;;
  let cases_futu :=
    add_int2 (cumsum_axis0 (transpose (cols_from num_days_data new_cases)))
             last in
  let median := median_axis_last cases_futu in
  lower <- percentile_axis_last cases_futu (5 # 2) ;;
  upper <- percentile_axis_last cases_futu (195 # 2) ;;
  plotted <- mpl_slice_from 1 mpl_dates_fut ;;
  Ok {| f0_mpl_dates := mpl_dates;
        f0_cum_cases := cum_cases;
        f0_mpl_dates_fut := mpl_dates_fut;
        f0_cases_futu := cases_futu;
        f0_median := median;
        f0_percentiles := (lower, upper);
        f0_dates_plotted := plotted |}.

(** *** [create_figure_3_timeseries], data of one trace

    The plot interval and the date axes computed before the loop, and the
    "PREPARE DATA" block of one pass of the loop over the traces. *)

Record timeseries : Type := {
  start_date : mplnum;
  end_date : mplnum;
  mid_date : mplnum;
  mpl_dates_past : mplnum;
  mpl_dates_futu : mplnum;
  new_c_obsd : list Z;
  cum_c_obsd : list Z;
  new_c_past : matrix;
  new_c_futu : matrix;
  cum_c_past : matrix;
  cum_c_futu : matrix
}.

Definition create_figure_3_timeseries (new_cases : matrix) : result timeseries :=
  s <- conv_time_to_mpl_dates (PyInt (- len_cases_obs + 2)) ;;
  e <- conv_time_to_mpl_dates (PyInt (num_days_futu - 10)) ;;
  m <- conv_time_to_mpl_dates (PyInt 1) ;;
  let time_past := arange (- len_cases_obs + 1) 1 in
  let time_futu := arange 0 (num_days_futu + 1) in
  past <- conv_time_to_mpl_dates (int_array time_past) ;;
  futu <- conv_time_to_mpl_dates (int_array time_futu) ;;
  let new_c_obsd := diff cases_obs in
  let cum_c_obsd := cases_obs in
  let new_c_past := cols_to num_days_data new_cases in
  let new_c_futu := cols_from num_days_data new_cases in
  first <- getitem cases_obs 0 ;;
  let cum_c_past := add_int2 (cumsum_axis1 (insert0_axis1 0 new_c_past)) first in
  last <- getitem cases_obs (-1) ;;
  let cum_c_futu := add_int2 (cumsum_axis1 (insert0_axis1 0 new_c_futu)) last in
  Ok {| start_date := mpl_add s diff_to_0;
        end_date := mpl_add e diff_to_0;
        mid_date := mpl_add m diff_to_0;
        mpl_dates_past := mpl_add past diff_to_0;
        mpl_dates_futu := mpl_add futu diff_to_0;
        new_c_obsd := new_c_obsd;
        cum_c_obsd := cum_c_obsd;
        new_c_past := new_c_past;
        new_c_futu := new_c_futu;
        cum_c_past := cum_c_past;
        cum_c_futu := cum_c_futu |}.

(** *** Settings that depend on the last date *)

(** [date_data_end + datetime.timedelta(days=num_days_futu)] *)
Definition date_end_sim : result Datetime.datetime :=
  td <- Datetime.timedelta_of_days (FNum (inject_Z num_days_futu)) ;;
  Datetime.add td date_data_end.

(** [(date_end_sim - date_begin_sim).days] *)
Definition num_days_sim : result Z :=
  d <- date_end_sim ;;
  Ok (Datetime.days (Datetime.diff d date_begin_sim)).

(** *** The growth-rate panel of both figures

    The date axis of [lambda_t], and the red line that separates the days
    constrained by data from the later ones. *)

Definition lambda_mpl_dates : result mplnum :=
  n <- num_days_sim ;;
  let time := arange (- diff_to_0 + 1) (- diff_to_0 + n + 1) in
  conv <- conv_time_to_mpl_dates (int_array time) ;;
  Ok (mpl_add (mpl_add conv diff_data_sim) num_days_data).

(** [date2num(date_data_end) - np.percentile(trace.delay, q=75)] *)
Definition delay_marker (delay : list Q) : result Q :=
  let today := Datetime.date2num epoch date_data_end in
  perc <- percentile delay 75 ;;
  Ok (today - perc)%Q.

(** *** [create_figure_0], new cases

    The data of the "NEW CASES" panel: dates, observed new cases and the
    fit of the main trace, then one pass of the loop over the scenarios:
    the fit median of the scenario, the forecast dates, and the forecast
    with its median and 95% band. *)

Record figure_0_new : Type := {
  f0n_mpl_dates : mplnum;
  f0n_start_date : Q;
  f0n_diff_cases : list Z;
  f0n_fit_percentiles : list Q * list Q;
  f0n_fit_median : list scalar;
  f0n_scen_median : list scalar;
  f0n_mpl_dates_fut : mplnum;
  f0n_end_date : Q;
  f0n_cases_futu : matrix;
  f0n_median : list scalar;
  f0n_percentiles : list Q * list Q;
  f0n_dates_plotted : list Q
}.

Definition create_figure_0_new (trace_new_cases scen_new_cases : matrix)
  : result figure_0_new :=
  let time1 := arange (- len_cases_obs + 2) 1 in
  conv1 <- conv_time_to_mpl_dates (int_array time1) ;;
  let mpl_dates := mpl_add (mpl_add conv1 diff_data_sim) num_days_data in
  start_date <- mpl_getitem 0 mpl_dates ;;
  let diff_cases := diff cases_obs in
  let new_cases_past := cols_to num_days_data trace_new_cases in
  fit_lower <- percentile_axis0 new_cases_past (5 # 2) ;;
  fit_upper <- percentile_axis0 new_cases_past (195 # 2) ;;
  let fit_median := median_axis0 new_cases_past in
  let scen_past := cols_to num_days_data scen_new_cases in
  let scen_median := median_axis0 scen_past in
  let time2 := arange 0 (num_days_futu + 1) in
  conv2 <- conv_time_to_mpl_dates (int_array time2) ;;
  let mpl_dates_fut := mpl_add (mpl_add conv2 diff_data_sim) num_days_data in
  end_date <- mpl_getitem (-10) mpl_dates_fut ;;
  let cases_futu := transpose (cols_from num_days_data scen_new_cases) in
  let median := median_axis_last cases_futu in
  lower <- percentile_axis_last cases_futu (5 # 2) ;;
  upper <- percentile_axis_last cases_futu (195 # 2) ;;
  plotted <- mpl_slice_from 1 mpl_dates_fut ;;
  Ok {| f0n_mpl_dates := mpl_dates;
        f0n_start_date := start_date;
        f0n_diff_cases := diff_cases;
        f0n_fit_percentiles := (fit_lower, fit_upper);
        f0n_fit_median := fit_median;
        f0n_scen_median := scen_median;
        f0n_mpl_dates_fut := mpl_dates_fut;
        f0n_end_date := end_date;
        f0n_cases_futu := cases_futu;
        f0n_median := median;
        f0n_percentiles := (lower, upper);
        f0n_dates_plotted := plotted |}.

End Clock.

End Figures.

Export Figures.

(** * Properties *)

(** ** 64-bit wrap-around *)

Section Int64.

Local Open Scope Z_scope.

Lemma wrap64_id (z : Z) : in_int64 z -> wrap64 z = z.
Proof.
  unfold in_int64, wrap64; intros Hz.
  rewrite Z.mod_small; lia.
Qed.

Lemma wrap64_add_l (a b : Z) : wrap64 (wrap64 a + b) = wrap64 (a + b).
Proof.
  unfold wrap64.
  replace ((a + 2 ^ 63) mod 2 ^ 64 - 2 ^ 63 + b + 2 ^ 63)
    with ((a + 2 ^ 63) mod 2 ^ 64 + b) by ring.
  rewrite Z.add_mod_idemp_l by lia.
  f_equal; f_equal; ring.
Qed.

Lemma wrap64_add_r (a b : Z) : wrap64 (a + wrap64 b) = wrap64 (a + b).
Proof.
  rewrite (Z.add_comm a (wrap64 b)), wrap64_add_l.
  f_equal; ring.
Qed.

(** Continuing the running sum of the differences from an accumulator that
    stands for the previous entry gives back the later entries. *)
Lemma cumsum_from_diff (t : list Z) :
  forall acc a c,
    Forall in_int64 t ->
    wrap64 (acc + c) = a ->
    add_scalar (cumsum_from acc (diff (a :: t))) c = t.
Proof.
  induction t as [|y t IH]; intros acc a c Ht Hacc.
  - reflexivity.
  - inversion Ht as [|? ? Hy Ht']; subst.
    change (diff (wrap64 (acc + c) :: y :: t))
      with (wrap64 (y - wrap64 (acc + c)) :: diff (y :: t)).
    cbn [cumsum_from add_scalar map dadd int64].
    assert (Hs : wrap64 (wrap64 (acc + wrap64 (y - wrap64 (acc + c))) + c) = y).
    { rewrite wrap64_add_l.
      transitivity (wrap64 ((y - wrap64 (acc + c)) + wrap64 (acc + c))).
      - rewrite (wrap64_add_r (y - wrap64 (acc + c)) (acc + c)).
        replace (acc + wrap64 (y - wrap64 (acc + c)) + c)
          with ((acc + c) + wrap64 (y - wrap64 (acc + c))) by ring.
        rewrite wrap64_add_r; f_equal; ring.
      - replace (y - wrap64 (acc + c) + wrap64 (acc + c)) with y by ring.
        now apply wrap64_id. }
    rewrite Hs; f_equal.
    apply (IH _ y c Ht' Hs).
Qed.

End Int64.

(** C5. Taking the first differences of a non-empty [int64] cumulative
    sequence ([np.diff]) and then the prefix sum of the differences with a
    zero put in front ([np.cumsum(np.insert(., 0, 0))]), anchored at the
    original first value ([+ cases_obs[0]]), gives the original sequence
    back, entry for entry. *)
Theorem cumulative_roundtrip (obs : list Z) (first : Z) :
  Forall in_int64 obs ->
  getitem obs 0 = Ok first ->
  add_scalar (cumsum (insert0 dzero (diff obs))) first = obs.
Proof.
  intros Hall Hfirst.
  destruct obs as [|a t]; [discriminate|].
  assert (first = a) as ->.
  { unfold getitem in Hfirst; cbn in Hfirst.
    destruct (Z.of_nat (S (List.length t))) eqn:E; try lia;
      cbn in Hfirst; congruence. }
  inversion Hall as [|? ? Ha Ht]; subst.
  unfold insert0, cumsum.
  cbn [add_scalar map dadd dzero int64].
  rewrite Z.add_0_l, (wrap64_id Ha); f_equal.
  apply cumsum_from_diff; [assumption|].
  now rewrite Z.add_0_l, wrap64_id.
Qed.

Lemma cumulative_roundtrip_witness :
  add_scalar (cumsum (insert0 dzero (diff [100; 110; 125]%Z))) 100%Z
  = [100; 110; 125]%Z.
Proof.
  apply cumulative_roundtrip.
  - repeat constructor; unfold in_int64; lia.
  - reflexivity.
Defined.

(** ** Order statistics *)

Section Sorting.

Lemma insert_sorted_length (x : Q) (l : list Q) :
  List.length (insert_sorted x l) = S (List.length l).
Proof.
  induction l as [|y t IH]; cbn; [reflexivity|].
  destruct (Qle_bool x y); cbn; congruence.
Qed.

Lemma sort_length (a : list Q) : List.length (sort a) = List.length a.
Proof.
  induction a as [|x t IH]; [reflexivity|].
  change (sort (x :: t)) with (insert_sorted x (sort t)).
  now rewrite insert_sorted_length, IH.
Qed.

Lemma insert_sorted_Forall (P : Q -> Prop) (x : Q) (l : list Q) :
  P x -> Forall P l -> Forall P (insert_sorted x l).
Proof.
  intros Hx Hl; induction Hl as [|y t Hy Ht IH]; cbn.
  - now constructor.
  - destruct (Qle_bool x y); repeat constructor; assumption.
Qed.

Lemma sort_Forall (P : Q -> Prop) (a : list Q) :
  Forall P a -> Forall P (sort a).
Proof.
  induction 1 as [|x t Hx Ht IH]; [constructor|].
  change (sort (x :: t)) with (insert_sorted x (sort t)).
  now apply insert_sorted_Forall.
Qed.

Lemma insert_sorted_sorted (x : Q) (l : list Q) :
  StronglySorted Qle l -> StronglySorted Qle (insert_sorted x l).
Proof.
  induction 1 as [|y t Hs IH Hy]; cbn.
  - repeat constructor.
  - destruct (Qle_bool x y) eqn:E.
    + apply Qle_bool_iff in E.
      constructor; [now constructor|].
      constructor; [assumption|].
      eapply Forall_impl; [|exact Hy].
      intros z Hz; now apply Qle_trans with y.
    + assert (Hyx : y <= x).
      { apply Qlt_le_weak, Qnot_le_lt; intros Hle.
        apply Qle_bool_iff in Hle; congruence. }
      constructor; [assumption|].
      now apply insert_sorted_Forall.
Qed.

Lemma sort_sorted (a : list Q) : StronglySorted Qle (sort a).
Proof.
  induction a as [|x t IH]; [constructor|].
  change (sort (x :: t)) with (insert_sorted x (sort t)).
  now apply insert_sorted_sorted.
Qed.

(** In a sorted array a later index holds a larger or equal entry. *)
Lemma sorted_nth (l : list Q) :
  StronglySorted Qle l ->
  forall i j, (i <= j)%nat -> (j < List.length l)%nat ->
  nth i l 0 <= nth j l 0.
Proof.
  induction 1 as [|y t Hs IH Hy]; intros i j Hij Hj; cbn in Hj; [lia|].
  destruct i as [|i], j as [|j]; cbn; try lia.
  - apply Qle_refl.
  - rewrite Forall_forall in Hy; apply Hy, nth_In; lia.
  - apply IH; lia.
Qed.

Lemma Forall_nth_Qeq (v : Q) (l : list Q) (i : nat) :
  Forall (fun x => x == v) l -> (i < List.length l)%nat -> nth i l 0 == v.
Proof.
  intros Hl Hi; rewrite Forall_forall in Hl; apply Hl, nth_In, Hi.
Qed.

End Sorting.

Section Interpolation.

Lemma Qfloor_unique (x : Q) (z : Z) :
  inject_Z z <= x -> x < inject_Z z + 1 -> Qfloor x = z.
Proof.
  intros Hlo Hhi.
  assert (H1 : (z <= Qfloor x)%Z).
  { rewrite <- (Qfloor_Z z); now apply Qfloor_resp_le. }
  assert (H2 : (Qfloor x < z + 1)%Z).
  { rewrite Zlt_Qlt, inject_Z_plus.
    apply Qle_lt_trans with x; [apply Qfloor_le|exact Hhi]. }
  lia.
Qed.

Lemma Qfloor_bounds (x : Q) (n : Z) :
  0 <= x -> x <= inject_Z n -> (0 <= Qfloor x <= n)%Z.
Proof.
  intros H0 Hn; split.
  - change 0%Z with (Qfloor 0); now apply Qfloor_resp_le.
  - rewrite <- (Qfloor_Z n); now apply Qfloor_resp_le.
Qed.

Lemma Qfloor_frac (x : Q) :
  0 <= x - inject_Z (Qfloor x) /\ x - inject_Z (Qfloor x) < 1.
Proof.
  pose proof (Qfloor_le x) as Hlo.
  pose proof (Qlt_floor x) as Hhi.
  rewrite inject_Z_plus in Hhi.
  change (inject_Z 1) with 1 in Hhi.
  split; lra.
Qed.

Variable s : list Q.
Hypothesis s_sorted : StronglySorted Qle s.

(** The interpolated value lies between the entry below and the entry
    above the virtual index. *)
Lemma lerp_at_between (x : Q) :
  0 <= x -> x <= inject_Z (Z.of_nat (List.length s) - 1) ->
  nth (Z.to_nat (Qfloor x)) s 0 <= lerp_at s x /\
  lerp_at s x <= nth (Z.to_nat (Z.min (Qfloor x + 1) (Z.of_nat (List.length s) - 1))) s 0.
Proof.
  intros H0 Hn.
  destruct (Qfloor_bounds H0 Hn) as [Hf0 Hfn].
  destruct (Qfloor_frac x) as [Hw0 Hw1].
  unfold lerp_at.
  set (i := Qfloor x) in *.
  assert (Hab : nth (Z.to_nat i) s 0
                <= nth (Z.to_nat (Z.min (i + 1) (Z.of_nat (List.length s) - 1))) s 0).
  { apply sorted_nth; [assumption| |]; lia. }
  set (a := nth (Z.to_nat i) s 0) in *.
  set (b := nth (Z.to_nat (Z.min (i + 1) (Z.of_nat (List.length s) - 1))) s 0) in *.
  set (w := x - inject_Z i) in *.
  split; nra.
Qed.

Lemma lerp_at_mono (x y : Q) :
  0 <= x -> x <= y -> y <= inject_Z (Z.of_nat (List.length s) - 1) ->
  lerp_at s x <= lerp_at s y.
Proof.
  intros H0 Hxy Hn.
  assert (Hx : x <= inject_Z (Z.of_nat (List.length s) - 1)) by lra.
  assert (Hy : 0 <= y) by lra.
  destruct (Qfloor_bounds H0 Hx) as [Hi0 Hin].
  destruct (Qfloor_bounds Hy Hn) as [Hk0 Hkn].
  pose proof (Qfloor_resp_le _ _ Hxy) as Hik.
  destruct (Z.eq_dec (Qfloor x) (Qfloor y)) as [E|NE].
  - destruct (Qfloor_frac x) as [Hw0 Hw1].
    destruct (Qfloor_frac y) as [Hv0 Hv1].
    unfold lerp_at.
    rewrite <- E in *.
    set (i := Qfloor x) in *.
    assert (Hab : nth (Z.to_nat i) s 0
                  <= nth (Z.to_nat (Z.min (i + 1) (Z.of_nat (List.length s) - 1))) s 0).
    { apply sorted_nth; [assumption| |]; lia. }
    set (a := nth (Z.to_nat i) s 0) in *.
    set (b := nth (Z.to_nat (Z.min (i + 1) (Z.of_nat (List.length s) - 1))) s 0) in *.
    nra.
  - destruct (lerp_at_between H0 Hx) as [_ Hup].
    destruct (lerp_at_between Hy Hn) as [Hlow _].
    apply Qle_trans with (nth (Z.to_nat (Qfloor y)) s 0); [|exact Hlow].
    eapply Qle_trans; [exact Hup|].
    apply sorted_nth; [assumption| |]; lia.
Qed.

End Interpolation.

(** ** Percentiles and the median of one array *)

Section Percentile.

Lemma percentile_ok (a : list Q) (q : Q) :
  a <> [] -> 0 <= q -> q <= 100 ->
  percentile a q
  = Ok (lerp_at (sort a) (q / 100 * inject_Z (Z.of_nat (List.length a) - 1))).
Proof.
  intros Ha H0 H100.
  unfold percentile.
  apply Qle_bool_iff in H0, H100.
  rewrite H0, H100; cbn [andb negb].
  destruct a; [contradiction|reflexivity].
Qed.

Lemma last_index_nonneg (a : list Q) :
  a <> [] -> 0 <= inject_Z (Z.of_nat (List.length a) - 1).
Proof.
  intros Ha.
  change 0 with (inject_Z 0); rewrite <- Zle_Qle.
  destruct a; [contradiction|cbn [List.length]; lia].
Qed.

(** A larger [q] gives a larger or equal percentile. *)
Lemma percentile_mono (a : list Q) (q1 q2 : Q) :
  a <> [] -> 0 <= q1 -> q1 <= q2 -> q2 <= 100 ->
  exists p1 p2,
    percentile a q1 = Ok p1 /\ percentile a q2 = Ok p2 /\ p1 <= p2.
Proof.
  intros Ha H0 H12 H100.
  do 2 eexists; split; [|split].
  - apply percentile_ok; [assumption|lra|lra].
  - apply percentile_ok; [assumption|lra|lra].
  - pose proof (last_index_nonneg Ha) as HN.
    rewrite <- (sort_length a) in *.
    set (N := inject_Z (Z.of_nat (List.length (sort a)) - 1)) in *.
    apply lerp_at_mono; [apply sort_sorted| | |]; fold N.
    + apply Qmult_le_0_compat; [|assumption].
      apply Qle_shift_div_l; lra.
    + apply Qmult_le_compat_r; [|assumption].
      apply Qmult_le_compat_r; [assumption|].
      apply Qinv_le_0_compat; lra.
    + setoid_replace N with (1 * N) at 2 by ring.
      apply Qmult_le_compat_r; [|assumption].
      apply Qle_shift_div_r; lra.
Qed.

(** The median is the 50th percentile. *)
Lemma median_percentile_50 (a : list Q) :
  a <> [] ->
  exists m p, median a = Finite m /\ percentile a 50 = Ok p /\ p == m.
Proof.
  intros Ha.
  rewrite (percentile_ok Ha) by lra.
  unfold median.
  destruct a as [|x0 t] eqn:Ea; [contradiction|]; rewrite <- Ea in *.
  assert (Hlen : (1 <= List.length a)%nat) by (subst a; cbn; lia).
  clear Ea x0 t.
  destruct (Nat.even (List.length a)) eqn:Ev.
  - apply Nat.even_spec in Ev; destruct Ev as [m Hm].
    do 2 eexists; split; [reflexivity|split; [reflexivity|]].
    assert (Hdiv : Nat.div (List.length a) 2 = m).
    { rewrite Hm, Nat.mul_comm; apply Nat.div_mul; lia. }
    rewrite Hdiv.
    unfold lerp_at; rewrite sort_length.
    set (idx := 50 / 100 * inject_Z (Z.of_nat (List.length a) - 1)).
    assert (Hidx : idx == inject_Z (Z.of_nat m - 1) + (1 # 2)).
    { unfold idx; rewrite Hm, Nat2Z.inj_mul.
      replace (Z.of_nat 2 * Z.of_nat m - 1)%Z
        with ((Z.of_nat m - 1) + Z.of_nat m)%Z by lia.
      rewrite !inject_Z_plus.
      replace (Z.of_nat m) with ((Z.of_nat m - 1) + 1)%Z at 2 by lia.
      rewrite inject_Z_plus.
      change (inject_Z 1) with 1. field. }
    assert (Hfl : Qfloor idx = (Z.of_nat m - 1)%Z).
    { apply Qfloor_unique; rewrite Hidx; lra. }
    rewrite Hfl.
    replace (Z.min (Z.of_nat m - 1 + 1) (Z.of_nat (List.length a) - 1))
      with (Z.of_nat m) by lia.
    replace (Z.to_nat (Z.of_nat m - 1)) with (m - 1)%nat by lia.
    rewrite Nat2Z.id, Hidx.
    field.
  - assert (Hodd : Nat.odd (List.length a) = true).
    { rewrite <- Nat.negb_even, Ev; reflexivity. }
    apply Nat.odd_spec in Hodd; destruct Hodd as [m Hm].
    do 2 eexists; split; [reflexivity|split; [reflexivity|]].
    assert (Hdiv : Nat.div (List.length a) 2 = m).
    { rewrite Hm. symmetry.
      apply (Nat.div_unique (2 * m + 1) 2 m 1); lia. }
    rewrite Hdiv.
    unfold lerp_at; rewrite sort_length.
    set (idx := 50 / 100 * inject_Z (Z.of_nat (List.length a) - 1)).
    assert (Hidx : idx == inject_Z (Z.of_nat m)).
    { unfold idx; rewrite Hm.
      replace (Z.of_nat (2 * m + 1) - 1)%Z
        with (Z.of_nat m + Z.of_nat m)%Z by lia.
      rewrite inject_Z_plus. field. }
    assert (Hfl : Qfloor idx = Z.of_nat m).
    { apply Qfloor_unique; rewrite Hidx; lra. }
    rewrite Hfl, Nat2Z.id, Hidx.
    ring.
Qed.

End Percentile.

Lemma percentile_constant (a : list Q) (v q : Q) :
  a <> [] -> Forall (fun x => x == v) a -> 0 <= q -> q <= 100 ->
  exists p, percentile a q = Ok p /\ p == v.
Proof.
  intros Ha Hv H0 H100.
  eexists; split; [now apply percentile_ok|].
  pose proof (last_index_nonneg Ha) as HN.
  apply sort_Forall in Hv.
  rewrite <- (sort_length a) in *.
  set (N := inject_Z (Z.of_nat (List.length (sort a)) - 1)) in *.
  assert (Hidx0 : 0 <= q / 100 * N).
  { apply Qmult_le_0_compat; [|assumption]. apply Qle_shift_div_l; lra. }
  assert (HidxN : q / 100 * N <= N).
  { setoid_replace N with (1 * N) at 2 by ring.
    apply Qmult_le_compat_r; [|assumption]. apply Qle_shift_div_r; lra. }
  destruct (Qfloor_bounds Hidx0 HidxN) as [Hf0 HfN].
  unfold lerp_at.
  rewrite !(Forall_nth_Qeq Hv) by lia.
  ring.
Qed.

Lemma median_constant (a : list Q) (v : Q) :
  a <> [] -> Forall (fun x => x == v) a ->
  exists m, median a = Finite m /\ m == v.
Proof.
  intros Ha Hv.
  destruct (median_percentile_50 Ha) as (m & p & Hm & Hp & Hpm).
  destruct (@percentile_constant a v 50 Ha Hv) as (p' & Hp' & Hpv); try lra.
  exists m; split; [assumption|].
  rewrite Hp in Hp'; injection Hp' as <-.
  now rewrite <- Hpm.
Qed.

(** ** Reductions along the sample axis *)

Section Axis.

Lemma mapM_nth (A B : Type) (f : A -> result B) (l : list A) :
  (forall x, In x l -> succeeds (f x)) ->
  exists ys,
    mapM f l = Ok ys /\
    forall i x, nth_error l i = Some x ->
      exists y, nth_error ys i = Some y /\ f x = Ok y.
Proof.
  induction l as [|x t IH]; intros Hok.
  - exists []; split; [reflexivity|].
    intros [|i] x Hx; discriminate.
  - destruct (Hok x (or_introl eq_refl)) as [y Hy].
    destruct IH as (ys & Hys & Hnth).
    { intros z Hz; apply Hok; now right. }
    exists (y :: ys); split.
    + cbn; rewrite Hy; cbn; rewrite Hys; reflexivity.
    + intros [|i] z Hz; cbn in *.
      * injection Hz as <-; eauto.
      * now apply Hnth.
Qed.

Lemma column_length (j : nat) (M : matrix) :
  List.length (column j M) = List.length M.
Proof. apply length_map. Qed.

Lemma column_nonempty (j : nat) (M : matrix) :
  (j < ncols M)%nat -> column j M <> [].
Proof.
  destruct M as [|row M]; cbn; [lia|discriminate].
Qed.

Lemma nth_error_seq0 (n j : nat) :
  (j < n)%nat -> nth_error (seq 0 n) j = Some j.
Proof.
  intros Hj.
  rewrite (nth_error_nth' _ 0%nat) by (rewrite length_seq; exact Hj).
  now rewrite seq_nth.
Qed.

Lemma percentile_axis0_nth (M : matrix) (q : Q) :
  0 <= q -> q <= 100 ->
  exists ps,
    percentile_axis0 M q = Ok ps /\
    forall j, (j < ncols M)%nat ->
      exists p, nth_error ps j = Some p /\ percentile (column j M) q = Ok p.
Proof.
  intros H0 H100.
  destruct (@mapM_nth _ _ (fun j => percentile (column j M) q)
              (seq 0 (ncols M))) as (ps & Hps & Hnth).
  { intros j Hj; apply in_seq in Hj.
    eexists; apply percentile_ok; [apply column_nonempty; lia| |]; assumption. }
  exists ps; split; [exact Hps|].
  intros j Hj; apply (Hnth j j), nth_error_seq0, Hj.
Qed.

Lemma median_axis0_nth (M : matrix) (j : nat) :
  (j < ncols M)%nat ->
  nth_error (median_axis0 M) j = Some (median (column j M)).
Proof.
  intros Hj; unfold median_axis0.
  now rewrite nth_error_map, nth_error_seq0.
Qed.

End Axis.

(** C2. For every coverage level in (0,1) and every sample matrix, the
    summary of each day column is ordered: the percentile at
    [(1 - coverage)/2] (as a percentage) over the sample axis is at most
    the 50th percentile, which is the median, which is at most the
    percentile at [1 - (1 - coverage)/2]. *)
Theorem summary_interval_ordered (M : matrix) (coverage : Q) :
  0 < coverage -> coverage < 1 ->
  exists lower p50 upper,
    percentile_axis0 M (100 * ((1 - coverage) / 2)) = Ok lower /\
    percentile_axis0 M 50 = Ok p50 /\
    percentile_axis0 M (100 * (1 - (1 - coverage) / 2)) = Ok upper /\
    forall j, (j < ncols M)%nat ->
      exists lo mid hi med,
        nth_error lower j = Some lo /\
        nth_error p50 j = Some mid /\
        nth_error upper j = Some hi /\
        nth_error (median_axis0 M) j = Some (Finite med) /\
        mid == med /\ lo <= med /\ med <= hi.
Proof.
  intros Hc0 Hc1.
  set (q_lo := 100 * ((1 - coverage) / 2)).
  set (q_hi := 100 * (1 - (1 - coverage) / 2)).
  assert (Eh : (1 - coverage) / 2 == (1 - coverage) * (1 # 2)) by field.
  assert (Hlo : 0 <= q_lo /\ q_lo <= 50)
    by (unfold q_lo; rewrite Eh; split; lra).
  assert (Hhi : 50 <= q_hi /\ q_hi <= 100)
    by (unfold q_hi; rewrite Eh; split; lra).
  destruct Hlo as [Hlo0 Hlo50], Hhi as [Hhi50 Hhi100].
  destruct (@percentile_axis0_nth M q_lo) as (lower & Hlower & Nlo); try lra.
  destruct (@percentile_axis0_nth M 50) as (p50 & Hp50 & Nmid); try lra.
  destruct (@percentile_axis0_nth M q_hi) as (upper & Hupper & Nhi); try lra.
  exists lower, p50, upper; repeat split; try assumption.
  intros j Hj.
  destruct (Nlo j Hj) as (lo & Elo & Plo).
  destruct (Nmid j Hj) as (mid & Emid & Pmid).
  destruct (Nhi j Hj) as (hi & Ehi & Phi).
  pose proof (@column_nonempty j M Hj) as Hne.
  destruct (median_percentile_50 Hne) as (med & p & Hmed & Hp & Hpm).
  rewrite Pmid in Hp; injection Hp as <-.
  destruct (@percentile_mono _ q_lo 50 Hne) as (a & b & Ha & Hb & Hab); try lra.
  destruct (@percentile_mono _ 50 q_hi Hne) as (c & d & Hc & Hd & Hcd); try lra.
  rewrite Plo in Ha; injection Ha as <-.
  rewrite Pmid in Hb, Hc; injection Hb as <-; injection Hc as <-.
  rewrite Phi in Hd; injection Hd as <-.
  exists lo, mid, hi, med; repeat split; try assumption.
  - now rewrite median_axis0_nth, Hmed.
  - now rewrite <- Hpm.
  - now rewrite <- Hpm.
Qed.

Lemma summary_interval_ordered_witness :
  exists lower p50 upper,
    percentile_axis0 [[1; 5]; [3; 2]; [2; 9]] (100 * ((1 - (95 # 100)) / 2))
    = Ok lower /\
    percentile_axis0 [[1; 5]; [3; 2]; [2; 9]] 50 = Ok p50 /\
    percentile_axis0 [[1; 5]; [3; 2]; [2; 9]]
      (100 * (1 - (1 - (95 # 100)) / 2)) = Ok upper /\
    forall j, lt j (ncols [[1; 5]; [3; 2]; [2; 9]]) ->
      exists lo mid hi med,
        nth_error lower j = Some lo /\
        nth_error p50 j = Some mid /\
        nth_error upper j = Some hi /\
        nth_error (median_axis0 [[1; 5]; [3; 2]; [2; 9]]) j
        = Some (Finite med) /\
        mid == med /\ lo <= med /\ med <= hi.
Proof.
  apply (@summary_interval_ordered [[1; 5]; [3; 2]; [2; 9]] (95 # 100));
    reflexivity.
Defined.

(** Every cell of a rectangular matrix equal to [v] makes every day column
    constant, and so does a single sample row. *)
Lemma column_of_constant_matrix (d j : nat) (v : Q) (M : matrix) :
  rectangular d M ->
  Forall (Forall (fun x => x == v)) M ->
  (j < d)%nat ->
  Forall (fun x => x == v) (column j M).
Proof.
  intros Hrect Hall Hj; unfold column.
  apply Forall_map.
  unfold rectangular in Hrect.
  induction Hall as [|row M Hrow HM IH]; constructor.
  - inversion Hrect as [|? ? Hlen _]; subst.
    apply Forall_nth_Qeq; [assumption|lia].
  - apply IH; now inversion Hrect.
Qed.

Lemma column_of_single_row (j : nat) (row : list Q) :
  Forall (fun x => x == nth j row 0) (column j [row]).
Proof. repeat constructor; apply Qeq_refl. Qed.

(** C7. When all sample values of a day column equal one value [v] -- as
    in a matrix with [v] in every cell, or in a matrix with a single sample
    row -- the summary of that day has median, lower and upper bound all
    equal to [v], whatever the coverage. *)
Theorem constant_column_summary (M : matrix) (coverage v : Q) (j : nat) :
  0 < coverage -> coverage < 1 ->
  (j < ncols M)%nat ->
  Forall (fun x => x == v) (column j M) ->
  exists lower upper lo med hi,
    percentile_axis0 M (100 * ((1 - coverage) / 2)) = Ok lower /\
    percentile_axis0 M (100 * (1 - (1 - coverage) / 2)) = Ok upper /\
    nth_error lower j = Some lo /\
    nth_error (median_axis0 M) j = Some (Finite med) /\
    nth_error upper j = Some hi /\
    lo == v /\ med == v /\ hi == v.
Proof.
  intros Hc0 Hc1 Hj Hv.
  set (q_lo := 100 * ((1 - coverage) / 2)).
  set (q_hi := 100 * (1 - (1 - coverage) / 2)).
  assert (Eh : (1 - coverage) / 2 == (1 - coverage) * (1 # 2)) by field.
  assert (Hlo : 0 <= q_lo /\ q_lo <= 100)
    by (unfold q_lo; rewrite Eh; split; lra).
  assert (Hhi : 0 <= q_hi /\ q_hi <= 100)
    by (unfold q_hi; rewrite Eh; split; lra).
  destruct Hlo as [Hlo0 Hlo1], Hhi as [Hhi0 Hhi1].
  destruct (@percentile_axis0_nth M q_lo) as (lower & Hlower & Nlo); try lra.
  destruct (@percentile_axis0_nth M q_hi) as (upper & Hupper & Nhi); try lra.
  destruct (Nlo j Hj) as (lo & Elo & Plo).
  destruct (Nhi j Hj) as (hi & Ehi & Phi).
  pose proof (@column_nonempty j M Hj) as Hne.
  destruct (median_constant Hne Hv) as (med & Hmed & Hmv).
  destruct (@percentile_constant _ v q_lo Hne Hv) as (a & Ha & Hav); try lra.
  destruct (@percentile_constant _ v q_hi Hne Hv) as (b & Hb & Hbv); try lra.
  rewrite Plo in Ha; injection Ha as <-.
  rewrite Phi in Hb; injection Hb as <-.
  exists lower, upper, lo, med, hi; repeat split; try assumption.
  now rewrite median_axis0_nth, Hmed.
Qed.

Lemma constant_column_summary_witness :
  exists lower upper lo med hi,
    percentile_axis0 [[5; 7]; [5; 8]; [5; 9]] (100 * ((1 - (95 # 100)) / 2))
    = Ok lower /\
    percentile_axis0 [[5; 7]; [5; 8]; [5; 9]]
      (100 * (1 - (1 - (95 # 100)) / 2)) = Ok upper /\
    nth_error lower 0 = Some lo /\
    nth_error (median_axis0 [[5; 7]; [5; 8]; [5; 9]]) 0 = Some (Finite med) /\
    nth_error upper 0 = Some hi /\
    lo == 5 /\ med == 5 /\ hi == 5.
Proof.
  apply (@constant_column_summary [[5; 7]; [5; 8]; [5; 9]] (95 # 100) 5 0).
  - reflexivity.
  - reflexivity.
  - cbn; lia.
  - repeat constructor.
Defined.

(** ** The median and interval label *)

Section Formatter.

Import String.

(** C6. [print_median_CI([5.0, 5.0, 5.0], prec=2)] is the two-line label
    ["Median: 5.00"], a newline, ["CI: [5.00, 5.00]"]: the median and both
    percentiles are 5 and each is written with two digits after the
    point. *)
Theorem print_median_CI_fives :
  print_median_CI [5; 5; 5] 2
  = Ok (append "Median: 5.00" (append newline "CI: [5.00, 5.00]")).
Proof. vm_compute; reflexivity. Qed.

(** C9. On an empty array [print_median_CI] fails: [np.median] yields
    [nan] and [np.percentile] then raises [IndexError], the exception the
    code has for an empty input.  On every non-empty array of numbers it
    returns a label. *)
Theorem print_median_CI_empty_or_not (arr : list Q) (prec : nat) :
  (arr = [] -> print_median_CI arr prec = Raise IndexError) /\
  (arr <> [] -> succeeds (print_median_CI arr prec)).
Proof.
  split.
  - intros ->; reflexivity.
  - intros Hne; unfold print_median_CI, succeeds.
    rewrite !(percentile_ok Hne) by lra.
    cbn [bind]; eauto.
Qed.

Lemma print_median_CI_empty_or_not_witness :
  print_median_CI [] 2 = Raise IndexError /\
  succeeds (print_median_CI [1 # 3; 7 # 8] 2).
Proof.
  split.
  - apply (proj1 (print_median_CI_empty_or_not [] 2)); reflexivity.
  - apply (proj2 (print_median_CI_empty_or_not [1 # 3; 7 # 8] 2));
      discriminate.
Defined.

End Formatter.

(** ** The calendar mapper *)

Section Calendar.

Local Open Scope Z_scope.

Lemma round_half_even_Z (z : Z) : round_half_even (inject_Z z) = z.
Proof.
  unfold round_half_even.
  rewrite Qfloor_Z.
  assert (E : (inject_Z z - inject_Z z == 0)%Q) by ring.
  now rewrite E.
Qed.

(** The simulation starts on 14 February 2020, ordinal 737469. *)
Lemma date_begin_sim_ordinal :
  date_begin_sim = 737469 * Datetime.us_per_day.
Proof. reflexivity. Qed.

(** The subtraction that defines [date_begin_sim] stays in range. *)
Lemma date_begin_sim_checked :
  (td <- Datetime.timedelta_of_days (FNum (inject_Z diff_data_sim)) ;;
   Datetime.sub date_data_begin td) = Ok date_begin_sim.
Proof. reflexivity. Qed.

(** The representable offsets: the dates of the years 1 to 9999. *)
Lemma representable_iff (n : Z) :
  representable n <-> -737468 <= n <= 2914590.
Proof.
  unfold representable, Datetime.in_range.
  rewrite date_begin_sim_ordinal, andb_true_iff, Z.leb_le, Z.ltb_lt.
  unfold Datetime.max_ordinal, Datetime.us_per_day; lia.
Qed.

Lemma timedelta_of_whole_days (n : Z) :
  representable n ->
  Datetime.timedelta_of_days (FNum (inject_Z n))
  = Ok (n * Datetime.us_per_day).
Proof.
  intros Hn; apply representable_iff in Hn.
  unfold Datetime.timedelta_of_days.
  change (inject_Z n * inject_Z Datetime.us_per_day)%Q
    with (inject_Z (n * Datetime.us_per_day)).
  rewrite round_half_even_Z.
  unfold Datetime.days.
  rewrite Z.div_mul by (unfold Datetime.us_per_day; lia).
  destruct (Z.abs n >? 999999999) eqn:E; [lia|reflexivity].
Qed.

Lemma add_whole_days (n : Z) :
  representable n ->
  Datetime.add (n * Datetime.us_per_day) date_begin_sim
  = Ok ((737469 + n) * Datetime.us_per_day).
Proof.
  intros Hn; unfold Datetime.add.
  rewrite Hn, date_begin_sim_ordinal; f_equal; ring.
Qed.

Lemma shift_date_int (n : Z) :
  representable n ->
  shift_date (PyInt n) = Ok ((737469 + n) * Datetime.us_per_day).
Proof.
  intros Hn; unfold shift_date; cbn [float bind].
  rewrite (timedelta_of_whole_days Hn); cbn [bind].
  now apply add_whole_days.
Qed.

Lemma shift_date_float (n : Z) :
  representable n ->
  shift_date (PyFloat (FNum (inject_Z n)))
  = Ok ((737469 + n) * Datetime.us_per_day).
Proof.
  intros Hn; unfold shift_date; cbn [float bind].
  rewrite (timedelta_of_whole_days Hn); cbn [bind].
  now apply add_whole_days.
Qed.

Lemma date2num_whole_days (epoch k : Z) :
  (Datetime.date2num epoch (k * Datetime.us_per_day)%Z
   == inject_Z (k - epoch)%Z)%Q.
Proof.
  unfold Datetime.date2num, Z.sub.
  rewrite inject_Z_mult, inject_Z_plus, inject_Z_opp.
  unfold Datetime.us_per_day; field.
Qed.

(** An integer offset goes through the scalar branch. *)
Lemma conv_time_to_mpl_dates_int (epoch n : Z) :
  representable n ->
  conv_time_to_mpl_dates epoch (PyInt n)
  = Ok (Scalar (Datetime.date2num epoch ((737469 + n) * Datetime.us_per_day))).
Proof.
  intros Hn; unfold conv_time_to_mpl_dates; cbn [iter bind try_except].
  now rewrite (shift_date_int Hn).
Qed.

Lemma mapM_shift_date (l : list Z) :
  Forall representable l ->
  mapM shift_date (map PyFloat (map (fun z => FNum (inject_Z z)) l))
  = Ok (map (fun n => (737469 + n) * Datetime.us_per_day) l).
Proof.
  induction 1 as [|n l Hn Hl IH]; [reflexivity|].
  cbn [map mapM].
  rewrite (shift_date_float Hn); cbn [bind].
  now rewrite IH.
Qed.

(** An array of integer offsets goes through the element-wise branch. *)
Lemma conv_time_to_mpl_dates_array (epoch : Z) (l : list Z) :
  Forall representable l ->
  conv_time_to_mpl_dates epoch (int_array l)
  = Ok (Array (map (fun n => Datetime.date2num epoch
                               ((737469 + n) * Datetime.us_per_day)) l)).
Proof.
  intros Hl; unfold conv_time_to_mpl_dates, int_array; cbn [iter bind].
  rewrite (mapM_shift_date Hl); cbn [bind try_except].
  now rewrite map_map.
Qed.

Lemma arange_In (a b n : Z) : In n (arange a b) -> a <= n < b.
Proof.
  unfold arange; rewrite in_map_iff.
  intros (k & <- & Hk); apply in_seq in Hk; lia.
Qed.

Lemma arange_representable (a b : Z) :
  -737468 <= a -> b <= 2914591 -> Forall representable (arange a b).
Proof.
  intros Ha Hb; apply Forall_forall; intros n Hn.
  apply arange_In in Hn; apply representable_iff; lia.
Qed.

End Calendar.

Section CalendarMapper.

Local Open Scope Z_scope.

Lemma conv_time_to_mpl_dates_overflow (epoch n : Z) :
  ~ representable n ->
  conv_time_to_mpl_dates epoch (PyInt n) = Raise OverflowError.
Proof.
  intros Hn; unfold conv_time_to_mpl_dates, shift_date.
  cbn [iter float bind try_except Datetime.timedelta_of_days].
  change (inject_Z n * inject_Z Datetime.us_per_day)%Q
    with (inject_Z (n * Datetime.us_per_day)).
  rewrite round_half_even_Z.
  destruct (_ >? _); [reflexivity|]; cbn [bind].
  unfold Datetime.add.
  unfold representable in Hn.
  destruct (Datetime.in_range _); [congruence|reflexivity].
Qed.

(** C4, as the code has it.  Offset 0 maps to the reference date
    [date_begin_sim], and for every integer [n], positive or negative, whose
    date [date_begin_sim + n days] a [datetime] can hold (the years 1 to
    9999, that is [-737468 <= n <= 2914590]) the date number of [n] minus
    the date number of 0 is [n].  Outside that range [datetime] raises
    [OverflowError]. *)
Theorem to_date_affine (epoch n : Z) :
  representable n ->
  exists d0 dn,
    conv_time_to_mpl_dates epoch (PyInt 0) = Ok (Scalar d0) /\
    (d0 == Datetime.date2num epoch date_begin_sim)%Q /\
    conv_time_to_mpl_dates epoch (PyInt n) = Ok (Scalar dn) /\
    (dn - d0 == inject_Z n)%Q.
Proof.
  intros Hn.
  assert (H0 : representable 0) by reflexivity.
  do 2 eexists; split; [apply (conv_time_to_mpl_dates_int epoch H0)|].
  split; [reflexivity|].
  split; [apply (conv_time_to_mpl_dates_int epoch Hn)|].
  rewrite !date2num_whole_days.
  unfold Z.sub; rewrite !inject_Z_plus; ring.
Qed.

Lemma to_date_affine_witness :
  exists d0 dn,
    conv_time_to_mpl_dates 0 (PyInt 0) = Ok (Scalar d0) /\
    (d0 == Datetime.date2num 0 date_begin_sim)%Q /\
    conv_time_to_mpl_dates 0 (PyInt (-5)) = Ok (Scalar dn) /\
    (dn - d0 == inject_Z (-5))%Q.
Proof.
  apply (@to_date_affine 0 (-5)); reflexivity.
Defined.

(** C4 as stated fails: 2914591 days after the reference date is
    1 January of year 10000, which no [datetime] holds; the call raises. *)
Lemma to_date_affine_counterexample :
  conv_time_to_mpl_dates 0 (PyInt 2914591) = Raise OverflowError.
Proof. vm_compute; reflexivity. Qed.

Lemma float_raises_kind (v : pyval) (e : exn) :
  float v = Raise e -> e = TypeError \/ e = ValueError.
Proof.
  destruct v as [| b | z | f | s | l | a]; cbn; try discriminate;
    try (intros [= <-]; now left).
  - unfold float_of_string.
    destruct (take_sign _) as [neg body].
    destruct (_ || _); [discriminate|].
    destruct (String.eqb _ _); [discriminate|].
    destruct (parse_floatnumber body); [discriminate|].
    intros [= <-]; now right.
  - destruct a as [|x [|y a]]; try discriminate;
      intros [= <-]; now left.
Qed.

Lemma mapM_raises (A B : Type) (f : A -> result B) (l : list A) (x : A) :
  In x l -> raises (f x) -> raises (mapM f l).
Proof.
  intros Hin [e He]; induction l as [|a t IH]; [contradiction|].
  cbn [mapM]; destruct (f a) as [y|e'] eqn:Ea; [|now exists e'].
  destruct Hin as [->|Hin]; [congruence|].
  destruct (IH Hin) as [e'' ->]; now exists e''.
Qed.

Lemma shift_date_raises (v : pyval) :
  raises (float v) -> raises (shift_date v).
Proof.
  intros [e He]; exists e; unfold shift_date; now rewrite He.
Qed.

(** C8, as the code has it.  When [float] rejects the offset itself and
    the offset either cannot be iterated or has an item that [float]
    rejects -- [None], a list holding [None], a word like ["abc"] -- the
    call raises the exception of [float(arr)], a [TypeError] or a
    [ValueError].  (A string of digits is iterated and each digit
    converted.) *)
Theorem to_date_rejects (epoch : Z) (arr : pyval) (e : exn) :
  float arr = Raise e ->
  (forall items, iter arr = Ok items ->
     exists x, In x items /\ raises (float x)) ->
  conv_time_to_mpl_dates epoch arr = Raise e /\
  (e = TypeError \/ e = ValueError).
Proof.
  intros Hfloat Hitems; split; [|now apply (float_raises_kind arr)].
  unfold conv_time_to_mpl_dates.
  assert (Hscalar : (d <- shift_date arr ;;
                     Ok (Scalar (Datetime.date2num epoch d))) = Raise e).
  { unfold shift_date; now rewrite Hfloat. }
  destruct (iter arr) as [items|e'] eqn:Hiter; cbn [bind try_except];
    [|exact Hscalar].
  destruct (Hitems items eq_refl) as (x & Hin & Hx).
  destruct (@mapM_raises _ _ shift_date items x Hin (@shift_date_raises x Hx))
    as [e' ->].
  exact Hscalar.
Qed.

Lemma to_date_rejects_witness :
  conv_time_to_mpl_dates 0 PyNone = Raise TypeError /\
  (TypeError = TypeError \/ TypeError = ValueError).
Proof.
  apply (@to_date_rejects 0 PyNone TypeError).
  - reflexivity.
  - intros items H; discriminate H.
Defined.

End CalendarMapper.

Section DigitString.

Import String.

(** C8 as stated fails: the string ["5"] is neither a number nor a sequence
    of numbers, yet the call returns the date five days after the reference
    date, in an array. *)
Lemma to_date_rejects_counterexample :
  is_number (PyStr "5") = false /\
  is_number_sequence (PyStr "5") = false /\
  conv_time_to_mpl_dates 0 (PyStr "5")
  = Ok (Array [Datetime.date2num 0 ((737469 + 5) * Datetime.us_per_day)%Z]).
Proof. repeat split. Qed.

Lemma word_offset_raises_ValueError :
  conv_time_to_mpl_dates 0 (PyStr "abc") = Raise ValueError.
Proof. reflexivity. Qed.

End DigitString.

(** ** The series of [create_figure_3_timeseries] and [create_figure_0] *)

Section Series.

Lemma getitem_nil (A : Type) (i : Z) : getitem (@nil A) i = Raise IndexError.
Proof.
  unfold getitem.
  destruct (_ && _); [|reflexivity].
  now destruct (Z.to_nat _).
Qed.

Lemma getitem_first (A : Type) (x : A) (t : list A) :
  getitem (x :: t) 0 = Ok x.
Proof.
  unfold getitem; cbn [Z.ltb Z.compare List.length].
  destruct (_ && _) eqn:E; [reflexivity|].
  apply andb_false_iff in E; destruct E as [E|E]; [discriminate|].
  apply Z.ltb_ge in E; lia.
Qed.

Lemma getitem_last (A : Type) (l : list A) :
  l <> [] -> exists last, getitem l (-1) = Ok last.
Proof.
  intros Hne; unfold getitem; cbn [Z.ltb Z.compare].
  assert (Hlen : (1 <= List.length l)%nat)
    by (destruct l; [contradiction|cbn; lia]).
  destruct (_ && _) eqn:E.
  - destruct (nth_error l _) as [v|] eqn:En; [now exists v|].
    apply nth_error_None in En; lia.
  - apply andb_false_iff in E; destruct E as [E|E];
      [apply Z.leb_gt in E|apply Z.ltb_ge in E]; lia.
Qed.

Lemma getitem_nonempty (A : Type) (l : list A) (i : Z) (v : A) :
  getitem l i = Ok v -> l <> [].
Proof. intros H ->; now rewrite getitem_nil in H. Qed.

Lemma cumsum_from_length (acc : Q) (a : list Q) :
  List.length (cumsum_from acc a) = List.length a.
Proof.
  revert acc; induction a as [|x t IH]; intros acc; cbn; [reflexivity|].
  now rewrite IH.
Qed.

Lemma cumsum_length (a : list Q) : List.length (cumsum a) = List.length a.
Proof.
  destruct a as [|x t]; cbn; [reflexivity|].
  now rewrite cumsum_from_length.
Qed.

(** A row of a cumulative view: a zero put in front, the running sum, and
    the anchor added. *)
Lemma anchored_row_length (c : Z) (new : list Q) :
  List.length (add_int (cumsum (insert0 0 new)) c) = S (List.length new).
Proof.
  unfold add_int, insert0.
  now rewrite length_map, cumsum_length.
Qed.

Lemma anchored_row_head (c : Z) (new : list Q) :
  exists x rest,
    add_int (cumsum (insert0 0 new)) c = x :: rest /\ x == inject_Z c.
Proof.
  unfold add_int, insert0; cbn [cumsum map].
  do 2 eexists; split; [reflexivity|ring].
Qed.

Lemma anchored_row_second (c : Z) (x : Q) (new : list Q) :
  exists a b rest,
    add_int (cumsum (insert0 0 (x :: new))) c = a :: b :: rest /\
    a == inject_Z c /\ b == inject_Z c + x.
Proof.
  unfold add_int, insert0; cbn [cumsum cumsum_from map dadd float64].
  do 3 eexists; split; [reflexivity|split; ring].
Qed.

Lemma num_days_data_ordinal (date_data_end : Datetime.datetime) :
  (num_days_data date_data_end
   = Datetime.toordinal date_data_end - 737485)%Z.
Proof.
  unfold num_days_data, Datetime.days, Datetime.diff, Datetime.toordinal.
  change date_data_begin with (737485 * Datetime.us_per_day)%Z.
  replace (date_data_end - 737485 * Datetime.us_per_day)%Z
    with (date_data_end + (- 737485) * Datetime.us_per_day)%Z by ring.
  rewrite Z.div_add by (unfold Datetime.us_per_day; lia).
  ring.
Qed.

(** The date number at offset [n] of an array shifted by [diff_to_0] is the
    date number of [n] days after the last data day. *)
Lemma shifted_date_number (epoch n : Z) (date_data_end : Datetime.datetime) :
  Datetime.date2num epoch ((737469 + n) * Datetime.us_per_day)%Z
  + inject_Z (diff_to_0 date_data_end)
  == Datetime.date2num epoch
       ((Datetime.toordinal date_data_end + n) * Datetime.us_per_day)%Z.
Proof.
  rewrite !date2num_whole_days.
  unfold diff_to_0, diff_data_sim; rewrite num_days_data_ordinal.
  rewrite <- inject_Z_plus.
  apply inject_Z_injective; lia.
Qed.

Section Figure3.

Variables (epoch : Z) (date_data_end : Datetime.datetime).
Variables (cases_obs : list Z) (new_cases : matrix).

(** With a non-empty observed sequence that reaches back no further than
    year 1, the data preparation returns, and these are its series. *)
Lemma create_figure_3_timeseries_ok (first last : Z) :
  getitem cases_obs 0 = Ok first ->
  getitem cases_obs (-1) = Ok last ->
  (len_cases_obs cases_obs <= 737469)%Z ->
  exists s e m past,
    create_figure_3_timeseries epoch date_data_end cases_obs new_cases
    = Ok {| start_date := s;
            end_date := e;
            mid_date := m;
            mpl_dates_past := past;
            mpl_dates_futu :=
              mpl_add
                (Array (map (fun n => Datetime.date2num epoch
                               ((737469 + n) * Datetime.us_per_day)%Z)
                          (arange 0 (num_days_futu + 1))))
                (diff_to_0 date_data_end);
            new_c_obsd := diff cases_obs;
            cum_c_obsd := cases_obs;
            new_c_past := cols_to (num_days_data date_data_end) new_cases;
            new_c_futu := cols_from (num_days_data date_data_end) new_cases;
            cum_c_past :=
              add_int2
                (cumsum_axis1
                   (insert0_axis1 0
                      (cols_to (num_days_data date_data_end) new_cases)))
                first;
            cum_c_futu :=
              add_int2
                (cumsum_axis1
                   (insert0_axis1 0
                      (cols_from (num_days_data date_data_end) new_cases)))
                last |}.
Proof.
  intros Hfirst Hlast Hlen.
  assert (Hpos : (1 <= List.length cases_obs)%nat).
  { pose proof (@getitem_nonempty _ cases_obs 0 first Hfirst) as Hne.
    destruct cases_obs; [contradiction|cbn; lia]. }
  unfold create_figure_3_timeseries, len_cases_obs in *.
  rewrite (@conv_time_to_mpl_dates_int epoch
             (- Z.of_nat (List.length cases_obs) + 2))
    by (apply representable_iff; lia).
  rewrite (@conv_time_to_mpl_dates_int epoch (num_days_futu - 10))
    by reflexivity.
  rewrite (@conv_time_to_mpl_dates_int epoch 1) by reflexivity.
  rewrite (@conv_time_to_mpl_dates_array epoch
             (arange (- Z.of_nat (List.length cases_obs) + 1) 1))
    by (apply arange_representable; lia).
  rewrite (@conv_time_to_mpl_dates_array epoch (arange 0 (num_days_futu + 1)))
    by (apply arange_representable; unfold num_days_futu; lia).
  cbn [bind]; rewrite Hfirst, Hlast; cbn [bind].
  do 4 eexists; reflexivity.
Qed.

Lemma create_figure_3_timeseries_empty :
  cases_obs = [] ->
  create_figure_3_timeseries epoch date_data_end cases_obs new_cases
  = Raise IndexError.
Proof.
  intros ->.
  unfold create_figure_3_timeseries, len_cases_obs.
  cbn [List.length Z.of_nat Z.opp Z.add].
  rewrite (@conv_time_to_mpl_dates_int epoch 2) by reflexivity.
  rewrite (@conv_time_to_mpl_dates_int epoch (num_days_futu - 10))
    by reflexivity.
  rewrite (@conv_time_to_mpl_dates_int epoch 1) by reflexivity.
  rewrite (@conv_time_to_mpl_dates_array epoch (arange 1 1))
    by (apply arange_representable; lia).
  rewrite (@conv_time_to_mpl_dates_array epoch (arange 0 (num_days_futu + 1)))
    by (apply arange_representable; unfold num_days_futu; lia).
  reflexivity.
Qed.

End Figure3.

Lemma anchored_rows (c : Z) (P : matrix) :
  Forall2
    (fun cum new =>
       List.length cum = S (List.length new) /\
       exists x rest, cum = x :: rest /\ x == inject_Z c)
    (add_int2 (cumsum_axis1 (insert0_axis1 0 P)) c) P.
Proof.
  unfold add_int2, cumsum_axis1, insert0_axis1.
  induction P as [|new P IH]; cbn [map]; constructor; [|exact IH].
  split; [apply anchored_row_length|apply anchored_row_head].
Qed.

End Series.

(** C10. In the data preparation of [create_figure_3_timeseries] the past
    cumulative view [cum_c_past] has, in every sample row, exactly one more
    day than the past new-cases matrix [new_c_past], and its first entry
    is the first observed count [cases_obs[0]]: the zero inserted before
    the running sum makes the fit start at the anchor. *)
Theorem cum_c_past_starts_at_anchor
    (epoch : Z) (date_data_end : Datetime.datetime)
    (cases_obs : list Z) (new_cases : matrix) (first : Z) :
  getitem cases_obs 0 = Ok first ->
  (len_cases_obs cases_obs <= 737469)%Z ->
  exists r,
    create_figure_3_timeseries epoch date_data_end cases_obs new_cases = Ok r /\
    Forall2
      (fun cum new =>
         List.length cum = S (List.length new) /\
         exists x rest, cum = x :: rest /\ x == inject_Z first)
      (cum_c_past r) (new_c_past r).
Proof.
  intros Hfirst Hlen.
  destruct (getitem_last (@getitem_nonempty _ cases_obs 0 first Hfirst))
    as [last Hlast].
  destruct (@create_figure_3_timeseries_ok epoch date_data_end cases_obs
              new_cases first last Hfirst Hlast Hlen) as (s & e & m & past & Hr).
  eexists; split; [exact Hr|].
  cbn [cum_c_past new_c_past]; apply anchored_rows.
Qed.

Lemma cum_c_past_starts_at_anchor_witness :
  exists r,
    create_figure_3_timeseries 0 (date_data_begin + 2 * Datetime.us_per_day)%Z
      [100; 110; 125]%Z [[10; 15; 20]; [10; 15; 20]; [10; 15; 20]] = Ok r /\
    Forall2
      (fun cum new =>
         List.length cum = S (List.length new) /\
         exists x rest, cum = x :: rest /\ x == inject_Z 100)
      (cum_c_past r) (new_c_past r).
Proof.
  apply (@cum_c_past_starts_at_anchor 0
           (date_data_begin + 2 * Datetime.us_per_day)%Z [100; 110; 125]%Z
           [[10; 15; 20]; [10; 15; 20]; [10; 15; 20]] 100%Z).
  - reflexivity.
  - unfold len_cases_obs; cbn; lia.
Defined.

(** C3, as the code has it.  The data preparation checks no length: with
    an empty observed sequence it raises [IndexError] (from
    [cases_obs[0]]), and with any non-empty one (short enough for its dates
    to exist) it returns, whatever the number of observations and of draws
    per row; the past draws are the columns before [num_days_data], as many
    as there are, and the future draws the columns from it. *)
Theorem aligner_checks_no_lengths
    (epoch : Z) (date_data_end : Datetime.datetime)
    (cases_obs : list Z) (new_cases : matrix) :
  (cases_obs = [] ->
   create_figure_3_timeseries epoch date_data_end cases_obs new_cases
   = Raise IndexError) /\
  (cases_obs <> [] ->
   (len_cases_obs cases_obs <= 737469)%Z ->
   exists r,
     create_figure_3_timeseries epoch date_data_end cases_obs new_cases = Ok r /\
     new_c_obsd r = diff cases_obs /\
     cum_c_obsd r = cases_obs /\
     new_c_past r = cols_to (num_days_data date_data_end) new_cases /\
     new_c_futu r = cols_from (num_days_data date_data_end) new_cases).
Proof.
  split.
  - apply create_figure_3_timeseries_empty.
  - intros Hne Hlen.
    destruct cases_obs as [|first t] eqn:E; [contradiction|].
    rewrite <- E in *.
    assert (Hfirst : getitem cases_obs 0 = Ok first)
      by (rewrite E; apply getitem_first).
    destruct (getitem_last Hne) as [last Hlast].
    destruct (@create_figure_3_timeseries_ok epoch date_data_end cases_obs
                new_cases first last Hfirst Hlast Hlen) as (s & e & m & past & Hr).
    eexists; split; [exact Hr|]; repeat split.
Qed.

Lemma aligner_checks_no_lengths_witness :
  create_figure_3_timeseries 0 (date_data_begin + 2 * Datetime.us_per_day)%Z
    [] [[10; 15; 20]] = Raise IndexError /\
  exists r,
    create_figure_3_timeseries 0 (date_data_begin + 2 * Datetime.us_per_day)%Z
      [100; 110; 125; 130]%Z [[10; 15; 20]] = Ok r /\
    new_c_obsd r = diff [100; 110; 125; 130]%Z /\
    cum_c_obsd r = [100; 110; 125; 130]%Z /\
    new_c_past r
    = cols_to (num_days_data (date_data_begin + 2 * Datetime.us_per_day)%Z)
        [[10; 15; 20]] /\
    new_c_futu r
    = cols_from (num_days_data (date_data_begin + 2 * Datetime.us_per_day)%Z)
        [[10; 15; 20]].
Proof.
  split.
  - apply (proj1 (aligner_checks_no_lengths 0
                    (date_data_begin + 2 * Datetime.us_per_day)%Z
                    [] [[10; 15; 20]])).
    reflexivity.
  - apply (proj2 (aligner_checks_no_lengths 0
                    (date_data_begin + 2 * Datetime.us_per_day)%Z
                    [100; 110; 125; 130]%Z [[10; 15; 20]])).
    + discriminate.
    + unfold len_cases_obs; cbn; lia.
Defined.

(** C3 as stated fails: with four observations and [num_days_data = 2]
    (so that the observed length is not [num_days_data + 1]) the call
    returns its series; nothing is raised. *)
Lemma aligner_length_mismatch_counterexample :
  num_days_data (date_data_begin + 2 * Datetime.us_per_day)%Z = 2%Z /\
  List.length [100; 110; 125; 130]%Z = 4%nat /\
  succeeds
    (create_figure_3_timeseries 0
       (date_data_begin + 2 * Datetime.us_per_day)%Z
       [100; 110; 125; 130]%Z [[10; 15; 20]]).
Proof.
  split; [reflexivity|]; split; [reflexivity|].
  eexists; vm_compute; reflexivity.
Qed.

(** ** The forecast of [create_figure_0] *)

Section Figure0.

Lemma slice_from_length (A : Type) (i : Z) (l : list A) :
  List.length (slice_from i l)
  = (List.length l - slice_bound (List.length l) i)%nat.
Proof. unfold slice_from; apply length_skipn. Qed.

Lemma slice_from_1 (A : Type) (a b : A) (t : list A) :
  slice_from 1 (a :: b :: t) = b :: t.
Proof.
  unfold slice_from, slice_bound; cbn [Z.ltb Z.compare List.length].
  replace (Z.to_nat (Z.min 1 (Z.of_nat (S (S (List.length t)))))) with 1%nat
    by lia.
  reflexivity.
Qed.

Lemma transpose_row_lengths (F : matrix) :
  Forall (fun r => List.length r = List.length F) (transpose F).
Proof.
  unfold transpose; apply Forall_map, Forall_forall.
  intros j _; apply column_length.
Qed.

Lemma cumsum_rows_from_lengths (n : nat) (T : matrix) :
  forall acc,
    List.length acc = n ->
    Forall (fun r => List.length r = n) T ->
    Forall (fun r => List.length r = n) (cumsum_rows_from acc T).
Proof.
  induction T as [|row T IH]; intros acc Hacc HT; cbn; [constructor|].
  apply Forall_cons_iff in HT; destruct HT as [Hrow HT'].
  assert (Hs : List.length
                 (map (fun p => fst p + snd p) (combine acc row)) = n).
  { rewrite length_map, length_combine; lia. }
  constructor; [exact Hs|].
  now apply IH.
Qed.

Lemma cumsum_axis0_lengths (n : nat) (T : matrix) :
  Forall (fun r => List.length r = n) T ->
  Forall (fun r => List.length r = n) (cumsum_axis0 T).
Proof.
  intros HT; destruct T as [|row T]; cbn; [constructor|].
  apply Forall_cons_iff in HT; destruct HT as [Hrow HT'].
  constructor; [exact Hrow|].
  now apply cumsum_rows_from_lengths.
Qed.

(** Every day of the cumulative forecast holds one value per sample. *)
Lemma cases_futu_rows_nonempty (F : matrix) (c : Z) :
  Forall (fun r => r <> []) (add_int2 (cumsum_axis0 (transpose F)) c).
Proof.
  destruct F as [|row F]; [constructor|].
  pose proof (cumsum_axis0_lengths (transpose_row_lengths (row :: F))) as H.
  unfold add_int2; apply Forall_map.
  eapply Forall_impl; [|exact H].
  intros r Hr Hnil; unfold add_int in Hnil.
  apply (f_equal (@List.length Q)) in Hnil.
  rewrite length_map, Hr in Hnil; discriminate.
Qed.

Lemma percentile_axis_last_ok (T : matrix) (q : Q) :
  0 <= q -> q <= 100 ->
  Forall (fun r => r <> []) T ->
  succeeds (percentile_axis_last T q).
Proof.
  intros H0 H100 HT.
  destruct (@mapM_nth _ _ (fun row => percentile row q) T) as (ps & Hps & _).
  { rewrite Forall_forall in HT; intros r Hr.
    eexists; apply percentile_ok; auto. }
  now exists ps.
Qed.

(** The first day of the cumulative forecast is the first future draw of
    every sample plus the anchor. *)
Lemma cases_futu_day0 (F : matrix) (c : Z) :
  (1 <= ncols F)%nat ->
  exists later,
    add_int2 (cumsum_axis0 (transpose F)) c
    = add_int (column 0 F) c :: later.
Proof.
  intros Hn; unfold transpose.
  destruct (ncols F) as [|k]; [lia|].
  cbn [seq map cumsum_axis0 add_int2].
  eexists; reflexivity.
Qed.

Lemma rectangular_ncols (d : nat) (M : matrix) (s : nat) (row : list Q) :
  rectangular d M -> nth_error M s = Some row ->
  ncols M = List.length row.
Proof.
  intros Hrect Hs; unfold rectangular in Hrect.
  rewrite Forall_forall in Hrect.
  rewrite (Hrect row (nth_error_In _ _ Hs)).
  destruct M as [|r0 M]; [now destruct s|].
  cbn; apply Hrect; now left.
Qed.

Lemma rectangular_cols_from (d : nat) (i : Z) (M : matrix) :
  rectangular d M ->
  rectangular (d - slice_bound d i) (cols_from i M).
Proof.
  unfold rectangular, cols_from; intros H.
  apply Forall_map; eapply Forall_impl; [|exact H].
  cbn; intros row <-; apply slice_from_length.
Qed.

Section Forecast.

Variables (epoch : Z) (date_data_end : Datetime.datetime).
Variables (cases_obs : list Z) (new_cases : matrix).

Lemma create_figure_0_total_ok (first last : Z) :
  getitem cases_obs 0 = Ok first ->
  getitem cases_obs (-1) = Ok last ->
  (len_cases_obs cases_obs <= 737469)%Z ->
  exists mpl_dates median lower upper,
    create_figure_0_total epoch date_data_end cases_obs new_cases
    = Ok {| f0_mpl_dates := mpl_dates;
            f0_cum_cases :=
              add_int2
                (cumsum_axis1
                   (cols_to (num_days_data date_data_end) new_cases))
                first;
            f0_mpl_dates_fut :=
              mpl_add
                (mpl_add
                   (Array (map (fun n => Datetime.date2num epoch
                                  ((737469 + n) * Datetime.us_per_day)%Z)
                             (arange 0 (num_days_futu + 1))))
                   diff_data_sim)
                (num_days_data date_data_end);
            f0_cases_futu :=
              add_int2
                (cumsum_axis0
                   (transpose
                      (cols_from (num_days_data date_data_end) new_cases)))
                last;
            f0_median := median;
            f0_percentiles := (lower, upper);
            f0_dates_plotted :=
              slice_from 1
                (add_int
                   (add_int
                      (map (fun n => Datetime.date2num epoch
                              ((737469 + n) * Datetime.us_per_day)%Z)
                         (arange 0 (num_days_futu + 1)))
                      diff_data_sim)
                   (num_days_data date_data_end)) |}.
Proof.
  intros Hfirst Hlast Hlen.
  assert (Hpos : (1 <= List.length cases_obs)%nat).
  { pose proof (@getitem_nonempty _ cases_obs 0 first Hfirst) as Hne.
    destruct cases_obs; [contradiction|cbn; lia]. }
  unfold create_figure_0_total, len_cases_obs in *.
  rewrite (@conv_time_to_mpl_dates_array epoch
             (arange (- Z.of_nat (List.length cases_obs) + 2) 1))
    by (apply arange_representable; lia).
  rewrite (@conv_time_to_mpl_dates_array epoch (arange 0 (num_days_futu + 1)))
    by (apply arange_representable; unfold num_days_futu; lia).
  cbn [bind]; rewrite Hfirst, Hlast; cbn [bind].
  set (futu := add_int2 _ last).
  destruct (@percentile_axis_last_ok futu (5 # 2)) as [lower ->];
    [lra|lra|apply cases_futu_rows_nonempty|].
  destruct (@percentile_axis_last_ok futu (195 # 2)) as [upper ->];
    [lra|lra|apply cases_futu_rows_nonempty|].
  cbn [bind mpl_add mpl_slice_from].
  do 4 eexists; reflexivity.
Qed.

End Forecast.

End Figure0.

Lemma time_futu_unfold :
  arange 0 (num_days_futu + 1) = 0%Z :: 1%Z :: arange 2 (num_days_futu + 1).
Proof. reflexivity. Qed.

Lemma nth_error_anchored (F : matrix) (c : Z) (s : nat) (new : list Q) :
  nth_error F s = Some new ->
  nth_error (add_int2 (cumsum_axis1 (insert0_axis1 0 F)) c) s
  = Some (add_int (cumsum (insert0 0 new)) c).
Proof.
  intros Hs; unfold add_int2, cumsum_axis1, insert0_axis1.
  now rewrite !nth_error_map, Hs.
Qed.

Lemma nth_error_day0 (F : matrix) (c : Z) (s : nat) (x : Q) (rest : list Q) :
  nth_error F s = Some (x :: rest) ->
  nth_error (add_int (column 0 F) c) s = Some (x + inject_Z c).
Proof.
  intros Hs; unfold add_int, column.
  now rewrite !nth_error_map, Hs.
Qed.

(** C1. The cumulative forecast is anchored at the last observed
    cumulative count.  For every sample row with a first future draw [x]:
    in [create_figure_0] the first day of [cases_futu] holds
    [cases_obs[-1] + x] for that sample, and it is plotted at the date
    number of the day after the last data day; in
    [create_figure_3_timeseries] the row of [cum_c_futu] starts with the
    anchor [cases_obs[-1]], dated at the last data day, followed by
    [cases_obs[-1] + x], dated at the day after.  With observed
    [100, 110, 125] and the draw 20 this is 145
    ([forecast_example_145]). *)
Theorem cumulative_forecast_anchor
    (epoch : Z) (date_data_end : Datetime.datetime)
    (cases_obs : list Z) (new_cases : matrix)
    (d s : nat) (last : Z) (row : list Q) (x : Q) (rest : list Q) :
  getitem cases_obs (-1) = Ok last ->
  (len_cases_obs cases_obs <= 737469)%Z ->
  rectangular d new_cases ->
  nth_error new_cases s = Some row ->
  slice_from (num_days_data date_data_end) row = x :: rest ->
  exists r0 r3,
    create_figure_0_total epoch date_data_end cases_obs new_cases = Ok r0 /\
    create_figure_3_timeseries epoch date_data_end cases_obs new_cases = Ok r3 /\
    (exists day0 later v date0 dates,
       f0_cases_futu r0 = day0 :: later /\
       nth_error day0 s = Some v /\
       v == inject_Z last + x /\
       f0_dates_plotted r0 = date0 :: dates /\
       date0 == Datetime.date2num epoch
                  ((Datetime.toordinal date_data_end + 1)
                   * Datetime.us_per_day)%Z) /\
    (exists a b more t0 t1 ts,
       nth_error (cum_c_futu r3) s = Some (a :: b :: more) /\
       a == inject_Z last /\
       b == inject_Z last + x /\
       mpl_dates_futu r3 = Array (t0 :: t1 :: ts) /\
       t0 == Datetime.date2num epoch
               (Datetime.toordinal date_data_end * Datetime.us_per_day)%Z /\
       t1 == Datetime.date2num epoch
               ((Datetime.toordinal date_data_end + 1)
                * Datetime.us_per_day)%Z).
Proof.
  intros Hlast Hlen Hrect Hrow Hslice.
  pose proof (@getitem_nonempty _ cases_obs (-1) last Hlast) as Hne.
  destruct cases_obs as [|first t] eqn:E; [contradiction|].
  rewrite <- E in *.
  assert (Hfirst : getitem cases_obs 0 = Ok first)
    by (rewrite E; apply getitem_first).
  destruct (@create_figure_0_total_ok epoch date_data_end cases_obs
              new_cases first last Hfirst Hlast Hlen)
    as (dates1 & med & lower & upper & Hr0).
  destruct (@create_figure_3_timeseries_ok epoch date_data_end cases_obs
              new_cases first last Hfirst Hlast Hlen)
    as (sd & ed & md & past & Hr3).
  set (F := cols_from (num_days_data date_data_end) new_cases) in *.
  assert (HF : nth_error F s = Some (x :: rest)).
  { unfold F, cols_from; now rewrite nth_error_map, Hrow, <- Hslice. }
  assert (Hn : (1 <= ncols F)%nat).
  { rewrite (@rectangular_ncols _ F s (x :: rest)
               (rectangular_cols_from _ Hrect) HF); cbn; lia. }
  do 2 eexists; split; [exact Hr0|]; split; [exact Hr3|]; split.
  - cbn [f0_cases_futu f0_dates_plotted].
    destruct (@cases_futu_day0 F last Hn) as [later Hday0].
    rewrite Hday0, time_futu_unfold; cbn [map add_int].
    rewrite slice_from_1.
    do 5 eexists; split; [reflexivity|].
    split; [apply (@nth_error_day0 F last s x rest HF)|].
    split; [ring|].
    split; [reflexivity|].
    rewrite !date2num_whole_days, num_days_data_ordinal.
    unfold diff_data_sim; rewrite <- !inject_Z_plus.
    apply inject_Z_injective; lia.
  - cbn [cum_c_futu mpl_dates_futu]; fold F.
    rewrite (@nth_error_anchored F last s (x :: rest) HF).
    destruct (anchored_row_second last x rest) as (a & b & more & -> & Ha & Hb).
    rewrite time_futu_unfold; cbn [map add_int mpl_add].
    do 6 eexists; split; [reflexivity|].
    split; [exact Ha|]; split; [exact Hb|]; split; [reflexivity|].
    split.
    + rewrite shifted_date_number, Z.add_0_r; reflexivity.
    + apply shifted_date_number.
Qed.

Lemma cumulative_forecast_anchor_witness :
  exists r0 r3,
    create_figure_0_total 0 (date_data_begin + 2 * Datetime.us_per_day)%Z
      [100; 110; 125]%Z [[10; 15; 20]; [10; 15; 20]; [10; 15; 20]] = Ok r0 /\
    create_figure_3_timeseries 0 (date_data_begin + 2 * Datetime.us_per_day)%Z
      [100; 110; 125]%Z [[10; 15; 20]; [10; 15; 20]; [10; 15; 20]] = Ok r3 /\
    (exists day0 later v date0 dates,
       f0_cases_futu r0 = day0 :: later /\
       nth_error day0 2 = Some v /\
       v == inject_Z 125 + 20 /\
       f0_dates_plotted r0 = date0 :: dates /\
       date0 == Datetime.date2num 0
                  ((Datetime.toordinal
                      (date_data_begin + 2 * Datetime.us_per_day)%Z + 1)
                   * Datetime.us_per_day)%Z) /\
    (exists a b more t0 t1 ts,
       nth_error (cum_c_futu r3) 2 = Some (a :: b :: more) /\
       a == inject_Z 125 /\
       b == inject_Z 125 + 20 /\
       mpl_dates_futu r3 = Array (t0 :: t1 :: ts) /\
       t0 == Datetime.date2num 0
               (Datetime.toordinal
                  (date_data_begin + 2 * Datetime.us_per_day)%Z
                * Datetime.us_per_day)%Z /\
       t1 == Datetime.date2num 0
               ((Datetime.toordinal
                   (date_data_begin + 2 * Datetime.us_per_day)%Z + 1)
                * Datetime.us_per_day)%Z).
Proof.
  apply (@cumulative_forecast_anchor 0
           (date_data_begin + 2 * Datetime.us_per_day)%Z [100; 110; 125]%Z
           [[10; 15; 20]; [10; 15; 20]; [10; 15; 20]]
           3 2 125%Z [10; 15; 20] 20 []).
  - reflexivity.
  - unfold len_cases_obs; cbn; lia.
  - repeat constructor.
  - reflexivity.
  - reflexivity.
Defined.

(** The example of the specification, evaluated: three observations
    [100, 110, 125], three samples with the draws [10, 15] for the two data
    days and [20] for the forecast day.  Every sample of the first forecast
    day is 145, in both figures; figure 3 keeps the anchor 125 in front. *)
Lemma forecast_example_145 :
  exists r0 r3,
    create_figure_0_total 0 (date_data_begin + 2 * Datetime.us_per_day)%Z
      [100; 110; 125]%Z [[10; 15; 20]; [10; 15; 20]; [10; 15; 20]] = Ok r0 /\
    create_figure_3_timeseries 0 (date_data_begin + 2 * Datetime.us_per_day)%Z
      [100; 110; 125]%Z [[10; 15; 20]; [10; 15; 20]; [10; 15; 20]] = Ok r3 /\
    f0_cases_futu r0 = [[145; 145; 145]] /\
    cum_c_futu r3 = [[125; 145]; [125; 145]; [125; 145]] /\
    cum_c_past r3 = [[100; 110; 125]; [100; 110; 125]; [100; 110; 125]].
Proof.
  do 2 eexists.
  split; [vm_compute; reflexivity|].
  split; [vm_compute; reflexivity|].
  repeat split.
Qed.

(** * Further properties of the series *)

(** ** Past and future draws, new and cumulative views *)

Section Views.

Lemma slice_to_from (A : Type) (i : Z) (l : list A) :
  slice_to i l ++ slice_from i l = l.
Proof. unfold slice_to, slice_from; apply firstn_skipn. Qed.

Lemma cols_to_from (i : Z) (M : matrix) :
  map (fun pf => fst pf ++ snd pf) (combine (cols_to i M) (cols_from i M)) = M.
Proof.
  unfold cols_to, cols_from.
  induction M as [|row M IH]; cbn [map combine fst snd]; [reflexivity|].
  now rewrite slice_to_from, IH.
Qed.

Lemma cumsum_from_Qeq (l : list Q) :
  forall a b, a == b -> Forall2 Qeq (cumsum_from a l) (cumsum_from b l).
Proof.
  induction l as [|x t IH]; intros a b Hab; cbn; constructor.
  - now rewrite Hab.
  - apply IH; now rewrite Hab.
Qed.

Lemma Forall2_Qeq_refl (l : list Q) : Forall2 Qeq l l.
Proof. induction l; constructor; [apply Qeq_refl|assumption]. Qed.

Lemma Forall2_Qeq_add_int (c : Z) (l l' : list Q) :
  Forall2 Qeq l l' -> Forall2 Qeq (add_int l c) (add_int l' c).
Proof.
  unfold add_int; induction 1 as [|x y l l' Hxy Hl IH]; cbn; constructor.
  - now rewrite Hxy.
  - exact IH.
Qed.

Lemma slice_from_1_cons (A : Type) (x : A) (rest : list A) :
  slice_from 1 (x :: rest) = rest.
Proof.
  unfold slice_from, slice_bound; cbn [Z.ltb Z.compare List.length].
  replace (Z.to_nat (Z.min 1 (Z.of_nat (S (List.length rest))))) with 1%nat
    by lia.
  reflexivity.
Qed.

(** Without its first entry, the anchored running sum with a zero in front
    is the anchored running sum. *)
Lemma anchored_row_tail (c : Z) (new : list Q) :
  Forall2 Qeq
    (add_int (cumsum new) c)
    (slice_from 1 (add_int (cumsum (insert0 0 new)) c)).
Proof.
  unfold insert0; cbn [cumsum add_int map].
  rewrite slice_from_1_cons.
  destruct new as [|x t]; cbn [cumsum cumsum_from]; [constructor|].
  apply (@Forall2_Qeq_add_int c (x :: cumsum_from x t)
           ((0 + x) :: cumsum_from (0 + x) t)).
  constructor; [ring|].
  apply cumsum_from_Qeq; ring.
Qed.

(** The successive differences of an anchored running sum are the
    summands. *)
Lemma diff_anchored_from (c : Q) (new : list Q) :
  forall a acc,
    a == acc ->
    Forall2 Qeq
      (diff ((a + c) :: map (fun y => y + c) (cumsum_from acc new))) new.
Proof.
  induction new as [|x t IH]; intros a acc Ha; [constructor|].
  cbn [cumsum_from map dadd float64].
  change (diff ((a + c) :: (acc + x + c)
                 :: map (fun y => y + c) (cumsum_from (acc + x) t)))
    with ((acc + x + c - (a + c))
            :: diff ((acc + x + c)
                       :: map (fun y => y + c) (cumsum_from (acc + x) t))).
  constructor; [rewrite Ha; ring|].
  apply IH; reflexivity.
Qed.

Lemma diff_anchored_row (c : Z) (new : list Q) :
  Forall2 Qeq (diff (add_int (cumsum (insert0 0 new)) c)) new.
Proof.
  unfold insert0, add_int; cbn [cumsum map].
  apply diff_anchored_from; reflexivity.
Qed.

Lemma diff_anchored_rows (c : Z) (P : matrix) :
  Forall2 (fun cum new => Forall2 Qeq (diff cum) new)
    (add_int2 (cumsum_axis1 (insert0_axis1 0 P)) c) P.
Proof.
  unfold add_int2, cumsum_axis1, insert0_axis1.
  induction P as [|new P IH]; cbn [map]; constructor; [|exact IH].
  apply diff_anchored_row.
Qed.

End Views.

(** In [create_figure_3_timeseries] the past and the future draws split
    every sample row of the trace in two: joined again, row by row, they
    are the trace. *)
Theorem past_and_future_partition_trace
    (epoch : Z) (date_data_end : Datetime.datetime)
    (cases_obs : list Z) (new_cases : matrix) (first : Z) :
  getitem cases_obs 0 = Ok first ->
  (len_cases_obs cases_obs <= 737469)%Z ->
  exists r,
    create_figure_3_timeseries epoch date_data_end cases_obs new_cases = Ok r /\
    map (fun pf => fst pf ++ snd pf) (combine (new_c_past r) (new_c_futu r))
    = new_cases.
Proof.
  intros Hfirst Hlen.
  destruct (getitem_last (@getitem_nonempty _ cases_obs 0 first Hfirst))
    as [last Hlast].
  destruct (@create_figure_3_timeseries_ok epoch date_data_end cases_obs
              new_cases first last Hfirst Hlast Hlen)
    as (s & e & m & past & Hr).
  eexists; split; [exact Hr|].
  cbn [new_c_past new_c_futu]; apply cols_to_from.
Qed.

Lemma past_and_future_partition_trace_witness :
  exists r,
    create_figure_3_timeseries 0 (date_data_begin + 2 * Datetime.us_per_day)%Z
      [100; 110; 125]%Z [[10; 15; 20]; [11; 14; 22]] = Ok r /\
    map (fun pf => fst pf ++ snd pf) (combine (new_c_past r) (new_c_futu r))
    = [[10; 15; 20]; [11; 14; 22]].
Proof.
  apply (@past_and_future_partition_trace 0
           (date_data_begin + 2 * Datetime.us_per_day)%Z [100; 110; 125]%Z
           [[10; 15; 20]; [11; 14; 22]] 100%Z).
  - reflexivity.
  - unfold len_cases_obs; cbn; lia.
Defined.

(** In [create_figure_3_timeseries] the cumulative views are consistent
    with the new-case views: in every sample row the successive
    differences ([np.diff]) of [cum_c_past] are the draws of [new_c_past],
    and those of [cum_c_futu] the draws of [new_c_futu]. *)
Theorem cumulative_views_difference
    (epoch : Z) (date_data_end : Datetime.datetime)
    (cases_obs : list Z) (new_cases : matrix) (first : Z) :
  getitem cases_obs 0 = Ok first ->
  (len_cases_obs cases_obs <= 737469)%Z ->
  exists r,
    create_figure_3_timeseries epoch date_data_end cases_obs new_cases = Ok r /\
    Forall2 (fun cum new => Forall2 Qeq (diff cum) new)
      (cum_c_past r) (new_c_past r) /\
    Forall2 (fun cum new => Forall2 Qeq (diff cum) new)
      (cum_c_futu r) (new_c_futu r).
Proof.
  intros Hfirst Hlen.
  destruct (getitem_last (@getitem_nonempty _ cases_obs 0 first Hfirst))
    as [last Hlast].
  destruct (@create_figure_3_timeseries_ok epoch date_data_end cases_obs
              new_cases first last Hfirst Hlast Hlen)
    as (s & e & m & past & Hr).
  eexists; split; [exact Hr|].
  cbn [cum_c_past new_c_past cum_c_futu new_c_futu].
  split; apply diff_anchored_rows.
Qed.

Lemma cumulative_views_difference_witness :
  exists r,
    create_figure_3_timeseries 0 (date_data_begin + 2 * Datetime.us_per_day)%Z
      [100; 110; 125]%Z [[10; 15; 20]; [11; 14; 22]] = Ok r /\
    Forall2 (fun cum new => Forall2 Qeq (diff cum) new)
      (cum_c_past r) (new_c_past r) /\
    Forall2 (fun cum new => Forall2 Qeq (diff cum) new)
      (cum_c_futu r) (new_c_futu r).
Proof.
  apply (@cumulative_views_difference 0
           (date_data_begin + 2 * Datetime.us_per_day)%Z [100; 110; 125]%Z
           [[10; 15; 20]; [11; 14; 22]] 100%Z).
  - reflexivity.
  - unfold len_cases_obs; cbn; lia.
Defined.

(** ** The two figures compute the same cumulative series *)

Section TwoFigures.

Lemma anchored_rows_tail (c : Z) (P : matrix) :
  Forall2 (Forall2 Qeq)
    (add_int2 (cumsum_axis1 P) c)
    (cols_from 1 (add_int2 (cumsum_axis1 (insert0_axis1 0 P)) c)).
Proof.
  unfold add_int2, cumsum_axis1, insert0_axis1, cols_from.
  induction P as [|new P IH]; cbn [map]; constructor; [|exact IH].
  apply anchored_row_tail.
Qed.

Lemma cumsum_rows_from_length (T : matrix) :
  forall acc, List.length (cumsum_rows_from acc T) = List.length T.
Proof.
  induction T as [|row T IH]; intros acc; cbn; [reflexivity|].
  now rewrite IH.
Qed.

Lemma nth_map_add (acc col : list Q) (s : nat) :
  (s < List.length acc)%nat -> (s < List.length col)%nat ->
  nth s (map (fun p => fst p + snd p) (combine acc col)) 0
  = nth s acc 0 + nth s col 0.
Proof.
  revert col s; induction acc as [|a acc IH]; intros col s Ha Hc;
    [cbn in Ha; lia|].
  destruct col as [|b col]; [cbn in Hc; lia|].
  destruct s as [|s]; cbn; [reflexivity|].
  apply IH; cbn in *; lia.
Qed.

Lemma column_nth (j s : nat) (F : matrix) :
  (s < List.length F)%nat ->
  nth s (column j F) 0 = nth j (nth s F []) 0.
Proof.
  intros Hs; unfold column.
  rewrite (nth_indep _ 0 ((fun row => nth j row 0) []))
    by (rewrite length_map; exact Hs).
  exact (map_nth (fun row => nth j row 0) F [] s).
Qed.

(** Running sums down the columns [js] of [F], read at sample [s], are the
    running sum along row [s] of the entries at [js]. *)
Lemma cumsum_rows_from_columns (F : matrix) (s : nat) (js : list nat) :
  forall acc i,
    (s < List.length F)%nat ->
    List.length acc = List.length F ->
    (i < List.length js)%nat ->
    nth s (nth i (cumsum_rows_from acc (map (fun j => column j F) js)) []) 0
    = nth i (cumsum_from (nth s acc 0)
               (map (fun j => nth j (nth s F []) 0) js)) 0.
Proof.
  induction js as [|j js IH]; intros acc i Hs Hacc Hi; [cbn in Hi; lia|].
  cbn [map cumsum_rows_from cumsum_from dadd float64].
  assert (Hstep : nth s (map (fun p => fst p + snd p)
                           (combine acc (column j F))) 0
                  = nth s acc 0 + nth j (nth s F []) 0).
  { rewrite nth_map_add by (rewrite ?column_length; lia).
    now rewrite column_nth. }
  destruct i as [|i]; cbn [nth]; [exact Hstep|].
  rewrite IH; [now rewrite Hstep|exact Hs| |cbn in Hi; lia].
  rewrite length_map, length_combine, column_length; lia.
Qed.

Lemma nth_cumsum_axis0_transpose (F : matrix) (s i : nat) :
  (s < List.length F)%nat -> (i < ncols F)%nat ->
  nth s (nth i (cumsum_axis0 (transpose F)) []) 0
  = nth i (cumsum (map (fun j => nth j (nth s F []) 0) (seq 0 (ncols F)))) 0.
Proof.
  intros Hs Hi; unfold transpose.
  destruct (ncols F) as [|D]; [lia|].
  cbn [seq map cumsum_axis0 cumsum].
  destruct i as [|i]; cbn [nth]; [now apply column_nth|].
  rewrite cumsum_rows_from_columns;
    [|exact Hs|apply column_length|rewrite length_seq; lia].
  now rewrite column_nth.
Qed.

Lemma map_nth_seq (row : list Q) :
  map (fun j => nth j row 0) (seq 0 (List.length row)) = row.
Proof.
  apply nth_ext with (d := 0) (d' := 0).
  - now rewrite length_map, length_seq.
  - intros n Hn; rewrite length_map, length_seq in Hn.
    rewrite (nth_indep _ 0 ((fun j => nth j row 0) 0%nat))
      by (rewrite length_map, length_seq; exact Hn).
    rewrite (map_nth (fun j => nth j row 0) (seq 0 (List.length row)) 0%nat n).
    now rewrite seq_nth.
Qed.

Lemma Forall2_Qeq_nth (l l' : list Q) (i : nat) :
  Forall2 Qeq l l' -> nth i l 0 == nth i l' 0.
Proof.
  intros H; revert i; induction H as [|x y l l' Hxy Hl IH]; intros [|i];
    cbn; try reflexivity; [exact Hxy|apply IH].
Qed.

Lemma cumsum_zero_front (new : list Q) :
  Forall2 Qeq (cumsum new) (cumsum_from 0 new).
Proof.
  destruct new as [|x t]; cbn [cumsum cumsum_from dadd float64];
    constructor; [ring|].
  apply cumsum_from_Qeq; ring.
Qed.

Lemma transpose_length (F : matrix) :
  List.length (transpose F) = ncols F.
Proof. unfold transpose; now rewrite length_map, length_seq. Qed.

Lemma cumsum_axis0_length (T : matrix) :
  List.length (cumsum_axis0 T) = List.length T.
Proof.
  destruct T as [|row T]; cbn; [reflexivity|].
  now rewrite cumsum_rows_from_length.
Qed.

(** Entry [k] of sample [s] in the forecast summed down the transposed
    draws is entry [k + 1] of row [s] summed along the draws with a zero
    in front. *)
Lemma forecast_entry_agrees
    (F : matrix) (c : Z) (d s k : nat) (new : list Q) :
  rectangular d F ->
  nth_error F s = Some new ->
  (k < List.length new)%nat ->
  exists dayk v rowc w,
    nth_error (add_int2 (cumsum_axis0 (transpose F)) c) k = Some dayk /\
    nth_error dayk s = Some v /\
    nth_error (add_int2 (cumsum_axis1 (insert0_axis1 0 F)) c) s = Some rowc /\
    nth_error rowc (S k) = Some w /\
    v == w.
Proof.
  intros Hrect Hnew Hk.
  assert (Hs : (s < List.length F)%nat)
    by (apply nth_error_Some; congruence).
  assert (Hcols : ncols F = List.length new)
    by (eapply rectangular_ncols; eassumption).
  assert (HFs : nth s F [] = new) by (now apply nth_error_nth).
  set (C := cumsum_axis0 (transpose F)).
  assert (HkC : (k < List.length C)%nat).
  { unfold C; rewrite cumsum_axis0_length, transpose_length; lia. }
  assert (Hrowlen : List.length (nth k C []) = List.length F).
  { pose proof (cumsum_axis0_lengths (transpose_row_lengths F)) as H.
    rewrite Forall_forall in H; apply H, nth_In, HkC. }
  exists (add_int (nth k C []) c), (nth s (nth k C []) 0 + inject_Z c).
  exists (add_int (cumsum (insert0 0 new)) c).
  exists (nth k (cumsum_from 0 new) 0 + inject_Z c).
  split; [|split; [|split; [|split]]].
  - unfold add_int2; rewrite nth_error_map.
    now rewrite (nth_error_nth' C [] HkC).
  - unfold add_int; rewrite nth_error_map.
    rewrite (nth_error_nth' (nth k C []) 0) by lia.
    reflexivity.
  - now apply nth_error_anchored.
  - unfold insert0, add_int; cbn [cumsum map nth_error].
    rewrite nth_error_map.
    rewrite (nth_error_nth' (cumsum_from 0 new) 0)
      by (rewrite cumsum_from_length; exact Hk).
    reflexivity.
  - unfold C; rewrite nth_cumsum_axis0_transpose by lia.
    rewrite HFs, Hcols, map_nth_seq.
    now rewrite (Forall2_Qeq_nth k (cumsum_zero_front new)).
Qed.

End TwoFigures.

(** The cumulative fit of [create_figure_0] is that of
    [create_figure_3_timeseries] without its first column: the zero the
    latter inserts only adds the anchor in front. *)
Theorem figures_agree_on_cumulative_fit
    (epoch : Z) (date_data_end : Datetime.datetime)
    (cases_obs : list Z) (new_cases : matrix) (first : Z) :
  getitem cases_obs 0 = Ok first ->
  (len_cases_obs cases_obs <= 737469)%Z ->
  exists r0 r3,
    create_figure_0_total epoch date_data_end cases_obs new_cases = Ok r0 /\
    create_figure_3_timeseries epoch date_data_end cases_obs new_cases = Ok r3 /\
    Forall2 (Forall2 Qeq) (f0_cum_cases r0) (cols_from 1 (cum_c_past r3)).
Proof.
  intros Hfirst Hlen.
  destruct (getitem_last (@getitem_nonempty _ cases_obs 0 first Hfirst))
    as [last Hlast].
  destruct (@create_figure_0_total_ok epoch date_data_end cases_obs
              new_cases first last Hfirst Hlast Hlen)
    as (dates1 & med & lower & upper & Hr0).
  destruct (@create_figure_3_timeseries_ok epoch date_data_end cases_obs
              new_cases first last Hfirst Hlast Hlen)
    as (sd & ed & md & past & Hr3).
  do 2 eexists; split; [exact Hr0|]; split; [exact Hr3|].
  cbn [f0_cum_cases cum_c_past]; apply anchored_rows_tail.
Qed.

Lemma figures_agree_on_cumulative_fit_witness :
  exists r0 r3,
    create_figure_0_total 0 (date_data_begin + 2 * Datetime.us_per_day)%Z
      [100; 110; 125]%Z [[10; 15; 20]; [11; 14; 22]] = Ok r0 /\
    create_figure_3_timeseries 0 (date_data_begin + 2 * Datetime.us_per_day)%Z
      [100; 110; 125]%Z [[10; 15; 20]; [11; 14; 22]] = Ok r3 /\
    Forall2 (Forall2 Qeq) (f0_cum_cases r0) (cols_from 1 (cum_c_past r3)).
Proof.
  apply (@figures_agree_on_cumulative_fit 0
           (date_data_begin + 2 * Datetime.us_per_day)%Z [100; 110; 125]%Z
           [[10; 15; 20]; [11; 14; 22]] 100%Z).
  - reflexivity.
  - unfold len_cases_obs; cbn; lia.
Defined.

(** The cumulative forecast of [create_figure_0], summed down the
    transposed future draws, is the transpose of that of
    [create_figure_3_timeseries] without its anchor column: forecast day
    [k] of sample [s] in [cases_futu] is entry [k + 1] of row [s] of
    [cum_c_futu]. *)
Theorem figures_agree_on_cumulative_forecast
    (epoch : Z) (date_data_end : Datetime.datetime)
    (cases_obs : list Z) (new_cases : matrix)
    (first : Z) (d s k : nat) (row : list Q) :
  getitem cases_obs 0 = Ok first ->
  (len_cases_obs cases_obs <= 737469)%Z ->
  rectangular d new_cases ->
  nth_error new_cases s = Some row ->
  (k < List.length (slice_from (num_days_data date_data_end) row))%nat ->
  exists r0 r3 dayk v rowc w,
    create_figure_0_total epoch date_data_end cases_obs new_cases = Ok r0 /\
    create_figure_3_timeseries epoch date_data_end cases_obs new_cases = Ok r3 /\
    nth_error (f0_cases_futu r0) k = Some dayk /\
    nth_error dayk s = Some v /\
    nth_error (cum_c_futu r3) s = Some rowc /\
    nth_error rowc (S k) = Some w /\
    v == w.
Proof.
  intros Hfirst Hlen Hrect Hrow Hk.
  destruct (getitem_last (@getitem_nonempty _ cases_obs 0 first Hfirst))
    as [last Hlast].
  destruct (@create_figure_0_total_ok epoch date_data_end cases_obs
              new_cases first last Hfirst Hlast Hlen)
    as (dates1 & med & lower & upper & Hr0).
  destruct (@create_figure_3_timeseries_ok epoch date_data_end cases_obs
              new_cases first last Hfirst Hlast Hlen)
    as (sd & ed & md & past & Hr3).
  set (F := cols_from (num_days_data date_data_end) new_cases) in *.
  assert (HF : nth_error F s
               = Some (slice_from (num_days_data date_data_end) row)).
  { unfold F, cols_from; now rewrite nth_error_map, Hrow. }
  destruct (@forecast_entry_agrees F last _ s k _
              (rectangular_cols_from (num_days_data date_data_end) Hrect)
              HF Hk)
    as (dayk & v & rowc & w & H1 & H2 & H3 & H4 & H5).
  do 2 eexists; exists dayk, v, rowc, w.
  split; [exact Hr0|]; split; [exact Hr3|].
  cbn [f0_cases_futu cum_c_futu]; fold F; auto.
Qed.

Lemma figures_agree_on_cumulative_forecast_witness :
  exists r0 r3 dayk v rowc w,
    create_figure_0_total 0 (date_data_begin + 1 * Datetime.us_per_day)%Z
      [100; 110]%Z [[10; 15; 20]; [11; 14; 22]] = Ok r0 /\
    create_figure_3_timeseries 0 (date_data_begin + 1 * Datetime.us_per_day)%Z
      [100; 110]%Z [[10; 15; 20]; [11; 14; 22]] = Ok r3 /\
    nth_error (f0_cases_futu r0) 1 = Some dayk /\
    nth_error dayk 1 = Some v /\
    nth_error (cum_c_futu r3) 1 = Some rowc /\
    nth_error rowc 2 = Some w /\
    v == w.
Proof.
  apply (@figures_agree_on_cumulative_forecast 0
           (date_data_begin + 1 * Datetime.us_per_day)%Z [100; 110]%Z
           [[10; 15; 20]; [11; 14; 22]] 100%Z 3 1 1 [11; 14; 22]).
  - reflexivity.
  - unfold len_cases_obs; cbn; lia.
  - repeat constructor.
  - reflexivity.
  - vm_compute; lia.
Defined.

(** ** The date axes *)

Section DateAxes.

Local Open Scope Z_scope.

Lemma arange_length (a b : Z) : List.length (arange a b) = Z.to_nat (b - a).
Proof. unfold arange; now rewrite length_map, length_seq. Qed.

Lemma arange_nth_error (a b : Z) (k : nat) (n : Z) :
  nth_error (arange a b) k = Some n -> n = a + Z.of_nat k.
Proof.
  unfold arange; rewrite nth_error_map.
  destruct (nth_error (seq 0 (Z.to_nat (b - a))) k) as [j|] eqn:E;
    [|discriminate].
  intros [= <-].
  assert (Hk : (k < List.length (seq 0 (Z.to_nat (b - a))))%nat)
    by (apply nth_error_Some; congruence).
  rewrite length_seq in Hk.
  rewrite nth_error_seq0 in E by exact Hk.
  congruence.
Qed.

Lemma arange_cons (a b : Z) : a < b -> arange a b = a :: arange (a + 1) b.
Proof.
  intros Hab; unfold arange.
  replace (Z.to_nat (b - a)) with (S (Z.to_nat (b - (a + 1)))) by lia.
  cbn [seq map]; f_equal; [lia|].
  rewrite <- seq_shift, map_map.
  apply map_ext; intros k; lia.
Qed.

Lemma nth_error_map_Some (A B : Type) (f : A -> B) (l : list A) (k : nat)
    (y : B) :
  nth_error (map f l) k = Some y ->
  exists x, nth_error l k = Some x /\ y = f x.
Proof.
  rewrite nth_error_map.
  destruct (nth_error l k) as [x|]; [|discriminate].
  intros [= <-]; now exists x.
Qed.

Lemma diff_length (l : list Z) :
  List.length (diff l) = (List.length l - 1)%nat.
Proof.
  induction l as [|x t IH]; [reflexivity|].
  destruct t as [|y t]; [reflexivity|].
  change (diff (x :: y :: t)) with (dsub y x :: diff (y :: t)).
  cbn [List.length] in *; lia.
Qed.

Lemma slice_from_1_length (A : Type) (l : list A) :
  List.length (slice_from 1 l) = (List.length l - 1)%nat.
Proof.
  rewrite slice_from_length; unfold slice_bound; cbn [Z.ltb Z.compare]; lia.
Qed.

Lemma slice_to_length (A : Type) (i : Z) (l : list A) :
  0 <= i <= Z.of_nat (List.length l) ->
  List.length (slice_to i l) = Z.to_nat i.
Proof.
  intros Hi; unfold slice_to, slice_bound.
  rewrite length_firstn.
  destruct (i <? 0) eqn:E; lia.
Qed.

Lemma slice_from_length_in (A : Type) (i : Z) (l : list A) :
  0 <= i <= Z.of_nat (List.length l) ->
  List.length (slice_from i l) = (List.length l - Z.to_nat i)%nat.
Proof.
  intros Hi; rewrite slice_from_length; unfold slice_bound.
  destruct (i <? 0) eqn:E; lia.
Qed.

Section Axes3.

Variables (epoch : Z) (date_data_end : Datetime.datetime).
Variables (cases_obs : list Z) (new_cases : matrix).

(** The dates [create_figure_3_timeseries] computes, spelled out. *)
Lemma create_figure_3_timeseries_dates (first : Z) :
  getitem cases_obs 0 = Ok first ->
  len_cases_obs cases_obs <= 737469 ->
  exists r,
    create_figure_3_timeseries epoch date_data_end cases_obs new_cases = Ok r /\
    start_date r
    = mpl_add (Scalar (Datetime.date2num epoch
                         ((737469 + (- len_cases_obs cases_obs + 2))
                          * Datetime.us_per_day)))
        (diff_to_0 date_data_end) /\
    end_date r
    = mpl_add (Scalar (Datetime.date2num epoch
                         ((737469 + (num_days_futu - 10))
                          * Datetime.us_per_day)))
        (diff_to_0 date_data_end) /\
    mid_date r
    = mpl_add (Scalar (Datetime.date2num epoch
                         ((737469 + 1) * Datetime.us_per_day)))
        (diff_to_0 date_data_end) /\
    mpl_dates_past r
    = mpl_add (Array (map (fun n => Datetime.date2num epoch
                                      ((737469 + n) * Datetime.us_per_day))
                        (arange (- len_cases_obs cases_obs + 1) 1)))
        (diff_to_0 date_data_end) /\
    mpl_dates_futu r
    = mpl_add (Array (map (fun n => Datetime.date2num epoch
                                      ((737469 + n) * Datetime.us_per_day))
                        (arange 0 (num_days_futu + 1))))
        (diff_to_0 date_data_end) /\
    new_c_obsd r = diff cases_obs /\
    new_c_past r = cols_to (num_days_data date_data_end) new_cases /\
    new_c_futu r = cols_from (num_days_data date_data_end) new_cases.
Proof.
  intros Hfirst Hlen.
  destruct (getitem_last (@getitem_nonempty _ cases_obs 0 first Hfirst))
    as [last Hlast].
  assert (Hpos : (1 <= List.length cases_obs)%nat).
  { pose proof (@getitem_nonempty _ cases_obs 0 first Hfirst) as Hne.
    destruct cases_obs; [contradiction|cbn; lia]. }
  unfold create_figure_3_timeseries, len_cases_obs in *.
  rewrite (@conv_time_to_mpl_dates_int epoch
             (- Z.of_nat (List.length cases_obs) + 2))
    by (apply representable_iff; lia).
  rewrite (@conv_time_to_mpl_dates_int epoch (num_days_futu - 10))
    by reflexivity.
  rewrite (@conv_time_to_mpl_dates_int epoch 1) by reflexivity.
  rewrite (@conv_time_to_mpl_dates_array epoch
             (arange (- Z.of_nat (List.length cases_obs) + 1) 1))
    by (apply arange_representable; lia).
  rewrite (@conv_time_to_mpl_dates_array epoch (arange 0 (num_days_futu + 1)))
    by (apply arange_representable; unfold num_days_futu; lia).
  cbn [bind]; rewrite Hfirst, Hlast; cbn [bind].
  eexists; split; [reflexivity|].
  cbn [start_date end_date mid_date mpl_dates_past mpl_dates_futu
       new_c_obsd new_c_past new_c_futu].
  repeat split.
Qed.

End Axes3.

End DateAxes.

(** The observations of [create_figure_3_timeseries] are dated day by day
    up to the last data day: [mpl_dates_past] has one date per observed
    count, date [k] is the day [len(cases_obs) - 1 - k] days before
    [date_data_end], and [mpl_dates_past[1:]], against which the observed
    new cases are plotted, is as long as [new_c_obsd]. *)
Theorem observed_dates_end_at_last_day
    (epoch : Z) (date_data_end : Datetime.datetime)
    (cases_obs : list Z) (new_cases : matrix) (first : Z) :
  getitem cases_obs 0 = Ok first ->
  (len_cases_obs cases_obs <= 737469)%Z ->
  exists r past,
    create_figure_3_timeseries epoch date_data_end cases_obs new_cases = Ok r /\
    mpl_dates_past r = Array past /\
    List.length past = List.length cases_obs /\
    List.length (slice_from 1 past) = List.length (new_c_obsd r) /\
    forall k t, nth_error past k = Some t ->
      t == Datetime.date2num epoch
             ((Datetime.toordinal date_data_end
               - (len_cases_obs cases_obs - 1) + Z.of_nat k)
              * Datetime.us_per_day)%Z.
Proof.
  intros Hfirst Hlen.
  destruct (@create_figure_3_timeseries_dates epoch date_data_end cases_obs
              new_cases first Hfirst Hlen)
    as (r & Hr & _ & _ & _ & Hpast & _ & Hobsd & _ & _).
  exists r; eexists; split; [exact Hr|].
  split; [rewrite Hpast; reflexivity|].
  assert (Hlength :
            List.length
              (add_int
                 (map (fun n => Datetime.date2num epoch
                                  ((737469 + n) * Datetime.us_per_day)%Z)
                    (arange (- len_cases_obs cases_obs + 1) 1))
                 (diff_to_0 date_data_end))
            = List.length cases_obs).
  { unfold add_int; rewrite !length_map, arange_length.
    unfold len_cases_obs; lia. }
  split; [exact Hlength|].
  split.
  - rewrite slice_from_1_length, Hlength, Hobsd, diff_length; reflexivity.
  - intros k t Hk; unfold add_int in Hk.
    apply nth_error_map_Some in Hk; destruct Hk as (x & Hx & ->).
    apply nth_error_map_Some in Hx; destruct Hx as (n & Hn & ->).
    apply arange_nth_error in Hn; subst n.
    etransitivity; [apply shifted_date_number|].
    match goal with
    | |- Datetime.date2num _ ?a == Datetime.date2num _ ?b =>
        replace a with b by ring
    end.
    reflexivity.
Qed.

Lemma observed_dates_end_at_last_day_witness :
  exists r past,
    create_figure_3_timeseries 0 (date_data_begin + 2 * Datetime.us_per_day)%Z
      [100; 110; 125]%Z [[10; 15; 20]] = Ok r /\
    mpl_dates_past r = Array past /\
    List.length past = List.length [100; 110; 125]%Z /\
    List.length (slice_from 1 past) = List.length (new_c_obsd r) /\
    forall k t, nth_error past k = Some t ->
      t == Datetime.date2num 0
             ((Datetime.toordinal
                 (date_data_begin + 2 * Datetime.us_per_day)%Z
               - (len_cases_obs [100; 110; 125]%Z - 1) + Z.of_nat k)
              * Datetime.us_per_day)%Z.
Proof.
  apply (@observed_dates_end_at_last_day 0
           (date_data_begin + 2 * Datetime.us_per_day)%Z [100; 110; 125]%Z
           [[10; 15; 20]] 100%Z).
  - reflexivity.
  - unfold len_cases_obs; cbn; lia.
Defined.

(** With well-formed input -- [num_days_data + 1] observations and
    [num_days_data + num_days_futu] draws per sample -- every series of
    [create_figure_3_timeseries] is as long as the dates it is plotted
    against: the observed new cases and the rows of [new_c_past] as
    [mpl_dates_past[1:]], the rows of [new_c_futu] as [mpl_dates_futu[1:]]. *)
Theorem plotted_lengths_agree
    (epoch : Z) (date_data_end : Datetime.datetime)
    (cases_obs : list Z) (new_cases : matrix) :
  (len_cases_obs cases_obs = num_days_data date_data_end + 1)%Z ->
  (1 <= len_cases_obs cases_obs <= 737469)%Z ->
  rectangular (Z.to_nat (num_days_data date_data_end + num_days_futu))
    new_cases ->
  exists r past futu,
    create_figure_3_timeseries epoch date_data_end cases_obs new_cases = Ok r /\
    mpl_dates_past r = Array past /\
    mpl_dates_futu r = Array futu /\
    List.length (new_c_obsd r) = List.length (slice_from 1 past) /\
    Forall (fun row => List.length row = List.length (slice_from 1 past))
      (new_c_past r) /\
    Forall (fun row => List.length row = List.length (slice_from 1 futu))
      (new_c_futu r).
Proof.
  intros Hwell [Hpos Hlen] Hrect.
  destruct cases_obs as [|first t] eqn:E; [cbn in Hpos; lia|].
  rewrite <- E in *.
  assert (Hfirst : getitem cases_obs 0 = Ok first)
    by (rewrite E; apply getitem_first).
  destruct (@create_figure_3_timeseries_dates epoch date_data_end cases_obs
              new_cases first Hfirst Hlen)
    as (r & Hr & _ & _ & _ & Hpast & Hfutu & Hobsd & Hnp & Hnf).
  exists r; do 2 eexists; split; [exact Hr|].
  split; [rewrite Hpast; reflexivity|].
  split; [rewrite Hfutu; reflexivity|].
  assert (Hlp : forall c,
            List.length
              (slice_from 1
                 (add_int
                    (map (fun n => Datetime.date2num epoch
                                     ((737469 + n) * Datetime.us_per_day)%Z)
                       (arange (- len_cases_obs cases_obs + 1) 1)) c))
            = Z.to_nat (num_days_data date_data_end)).
  { intros c; unfold add_int.
    rewrite slice_from_1_length, !length_map, arange_length; lia. }
  assert (Hlf : forall c,
            List.length
              (slice_from 1
                 (add_int
                    (map (fun n => Datetime.date2num epoch
                                     ((737469 + n) * Datetime.us_per_day)%Z)
                       (arange 0 (num_days_futu + 1))) c))
            = Z.to_nat num_days_futu).
  { intros c; unfold add_int.
    rewrite slice_from_1_length, !length_map, arange_length.
    unfold num_days_futu; lia. }
  rewrite Hlp, Hlf, Hobsd, Hnp, Hnf, diff_length.
  split; [unfold len_cases_obs in *; lia|].
  unfold rectangular, cols_to, cols_from in *.
  split; apply Forall_map; (eapply Forall_impl; [|exact Hrect]);
    cbn; intros row Hrow.
  - apply slice_to_length; unfold num_days_futu in *; lia.
  - rewrite slice_from_length_in; unfold num_days_futu in *; lia.
Qed.

Lemma plotted_lengths_agree_witness :
  exists r past futu,
    create_figure_3_timeseries 0 (date_data_begin + 2 * Datetime.us_per_day)%Z
      [100; 110; 125]%Z
      [[10; 15; 1; 2; 3; 4; 5; 6; 7; 8; 9; 10; 11; 12; 13; 14; 15; 16; 17;
        18; 19; 20; 21; 22; 23; 24; 25; 26; 27; 28]] = Ok r /\
    mpl_dates_past r = Array past /\
    mpl_dates_futu r = Array futu /\
    List.length (new_c_obsd r) = List.length (slice_from 1 past) /\
    Forall (fun row => List.length row = List.length (slice_from 1 past))
      (new_c_past r) /\
    Forall (fun row => List.length row = List.length (slice_from 1 futu))
      (new_c_futu r).
Proof.
  apply (@plotted_lengths_agree 0
           (date_data_begin + 2 * Datetime.us_per_day)%Z [100; 110; 125]%Z).
  - reflexivity.
  - unfold len_cases_obs; cbn; lia.
  - repeat constructor.
Defined.

(** ** Arrays of offsets *)

Section OffsetArrays.

Local Open Scope Z_scope.

Lemma mapM_shift_date_ints (l : list Z) :
  Forall representable l ->
  mapM shift_date (map PyInt l)
  = Ok (map (fun n => (737469 + n) * Datetime.us_per_day) l).
Proof.
  induction 1 as [|n l Hn Hl IH]; [reflexivity|].
  cbn [map mapM].
  rewrite (shift_date_int Hn); cbn [bind].
  now rewrite IH.
Qed.

Lemma shift_date_int_overflow (n : Z) :
  ~ representable n -> shift_date (PyInt n) = Raise OverflowError.
Proof.
  intros Hn; unfold shift_date.
  cbn [float bind Datetime.timedelta_of_days].
  change (inject_Z n * inject_Z Datetime.us_per_day)%Q
    with (inject_Z (n * Datetime.us_per_day)).
  rewrite round_half_even_Z.
  destruct (_ >? _); [reflexivity|]; cbn [bind].
  unfold Datetime.add.
  unfold representable in Hn.
  destruct (Datetime.in_range _); [congruence|reflexivity].
Qed.

Lemma shift_date_float_overflow (n : Z) :
  ~ representable n ->
  shift_date (PyFloat (FNum (inject_Z n))) = Raise OverflowError.
Proof. intros Hn; apply (shift_date_int_overflow Hn). Qed.

End OffsetArrays.

(** [conv_time_to_mpl_dates] treats a sequence element by element: for a
    list or an array of integer offsets whose dates exist it returns an
    array with one date number per offset, in order, each the date number
    the call returns for that offset alone. *)
Theorem to_date_elementwise (epoch : Z) (l : list Z) :
  Forall representable l ->
  exists dates,
    conv_time_to_mpl_dates epoch (PyList (map PyInt l)) = Ok (Array dates) /\
    conv_time_to_mpl_dates epoch (int_array l) = Ok (Array dates) /\
    List.length dates = List.length l /\
    forall k n, nth_error l k = Some n ->
      exists t,
        nth_error dates k = Some t /\
        conv_time_to_mpl_dates epoch (PyInt n) = Ok (Scalar t).
Proof.
  intros Hl.
  exists (map (fun n => Datetime.date2num epoch
                          ((737469 + n) * Datetime.us_per_day)%Z) l).
  split; [|split; [|split]].
  - unfold conv_time_to_mpl_dates; cbn [iter bind].
    rewrite (mapM_shift_date_ints Hl); cbn [bind try_except].
    now rewrite map_map.
  - now apply conv_time_to_mpl_dates_array.
  - apply length_map.
  - intros k n Hk.
    eexists; split; [rewrite nth_error_map, Hk; reflexivity|].
    apply conv_time_to_mpl_dates_int.
    rewrite Forall_forall in Hl; apply Hl; eapply nth_error_In; eassumption.
Qed.

Lemma to_date_elementwise_witness :
  exists dates,
    conv_time_to_mpl_dates 0 (PyList (map PyInt [-2; 0; 7]%Z))
    = Ok (Array dates) /\
    conv_time_to_mpl_dates 0 (int_array [-2; 0; 7]%Z) = Ok (Array dates) /\
    List.length dates = List.length [-2; 0; 7]%Z /\
    forall k n, nth_error [-2; 0; 7]%Z k = Some n ->
      exists t,
        nth_error dates k = Some t /\
        conv_time_to_mpl_dates 0 (PyInt n) = Ok (Scalar t).
Proof.
  apply (@to_date_elementwise 0 [-2; 0; 7]%Z).
  repeat constructor.
Defined.

(** The bare [except] of [conv_time_to_mpl_dates] hides the cause of a
    failure inside a sequence: when one offset of a list is out of the
    range of [datetime], the call raises the [TypeError] of [float(arr)]
    instead of the [OverflowError] the offset raises on its own; so does an
    array, unless it has exactly one entry. *)
Theorem to_date_masks_overflow (epoch : Z) (l : list Z) (n : Z) :
  In n l ->
  ~ representable n ->
  conv_time_to_mpl_dates epoch (PyInt n) = Raise OverflowError /\
  conv_time_to_mpl_dates epoch (PyList (map PyInt l)) = Raise TypeError /\
  (List.length l <> 1%nat ->
   conv_time_to_mpl_dates epoch (int_array l) = Raise TypeError) /\
  (List.length l = 1%nat ->
   conv_time_to_mpl_dates epoch (int_array l) = Raise OverflowError).
Proof.
  intros Hin Hn.
  split; [now apply conv_time_to_mpl_dates_overflow|].
  split; [|split].
  - unfold conv_time_to_mpl_dates; cbn [iter bind].
    destruct (@mapM_raises _ _ shift_date (map PyInt l) (PyInt n)) as [e ->].
    + now apply in_map.
    + exists OverflowError; now apply shift_date_int_overflow.
    + reflexivity.
  - intros Hlen.
    unfold conv_time_to_mpl_dates, int_array; cbn [iter bind].
    destruct (@mapM_raises _ _ shift_date
                (map PyFloat (map (fun z => FNum (inject_Z z)) l))
                (PyFloat (FNum (inject_Z n)))) as [e ->].
    + rewrite map_map; apply (in_map (fun z => PyFloat (FNum (inject_Z z)))),
        Hin.
    + exists OverflowError; now apply shift_date_float_overflow.
    + cbn [bind try_except]; unfold shift_date.
      destruct l as [|a [|b l]]; cbn [map float bind]; try reflexivity.
      cbn in Hlen; congruence.
  - intros Hlen.
    destruct l as [|a [|b l]]; try discriminate.
    destruct Hin as [->|[]].
    unfold conv_time_to_mpl_dates, int_array; cbn [iter bind map mapM].
    rewrite (shift_date_float_overflow Hn); cbn [bind try_except float].
    change (shift_date (PyArray [FNum (inject_Z n)]))
      with (shift_date (PyFloat (FNum (inject_Z n)))).
    now rewrite (shift_date_float_overflow Hn).
Qed.

Lemma to_date_masks_overflow_witness :
  conv_time_to_mpl_dates 0 (PyInt 2914591) = Raise OverflowError /\
  conv_time_to_mpl_dates 0 (PyList (map PyInt [0; 2914591]%Z))
  = Raise TypeError /\
  (List.length [0; 2914591]%Z <> 1%nat ->
   conv_time_to_mpl_dates 0 (int_array [0; 2914591]%Z) = Raise TypeError) /\
  (List.length [0; 2914591]%Z = 1%nat ->
   conv_time_to_mpl_dates 0 (int_array [0; 2914591]%Z) = Raise OverflowError).
Proof.
  apply (@to_date_masks_overflow 0 [0; 2914591]%Z 2914591%Z).
  - right; left; reflexivity.
  - intros H; apply representable_iff in H; lia.
Defined.

(** ** Percentiles stay within the data *)

Section Within.

(** A percentile lies between any two bounds of the entries. *)
Lemma percentile_within (a : list Q) (q lo hi : Q) :
  a <> [] -> 0 <= q -> q <= 100 ->
  Forall (fun x => lo <= x /\ x <= hi) a ->
  exists p, percentile a q = Ok p /\ lo <= p /\ p <= hi.
Proof.
  intros Ha H0 H100 Hall.
  eexists; split; [now apply percentile_ok|].
  pose proof (last_index_nonneg Ha) as HN.
  apply sort_Forall in Hall.
  rewrite <- (sort_length a) in *.
  set (N := inject_Z (Z.of_nat (List.length (sort a)) - 1)) in *.
  assert (Hidx0 : 0 <= q / 100 * N).
  { apply Qmult_le_0_compat; [|assumption]. apply Qle_shift_div_l; lra. }
  assert (HidxN : q / 100 * N <= N).
  { setoid_replace N with (1 * N) at 2 by ring.
    apply Qmult_le_compat_r; [|assumption]. apply Qle_shift_div_r; lra. }
  destruct (Qfloor_bounds Hidx0 HidxN) as [Hf0 HfN].
  destruct (lerp_at_between (sort_sorted a) Hidx0 HidxN) as [Hlow Hup].
  rewrite Forall_forall in Hall.
  split.
  - eapply Qle_trans; [|exact Hlow].
    apply Hall, nth_In; lia.
  - eapply Qle_trans; [exact Hup|].
    apply Hall, nth_In; lia.
Qed.

End Within.

Section Label.

Import String.

(** The label of [print_median_CI] is built from an interval that holds
    the median: for a non-empty array the three numbers it formats are the
    2.5th percentile, the median and the 97.5th percentile, in that order
    of size. *)
Theorem print_median_CI_brackets_median (arr : list Q) (prec : nat) :
  arr <> [] ->
  exists lo med hi,
    percentile arr (5 # 2) = Ok lo /\
    median arr = Finite med /\
    percentile arr (195 # 2) = Ok hi /\
    lo <= med /\ med <= hi /\
    print_median_CI arr prec
    = Ok (append "Median: "
            (append (truncate_number (Finite med) prec)
               (append newline
                  (append "CI: ["
                     (append (truncate_number (Finite lo) prec)
                        (append ", "
                           (append (truncate_number (Finite hi) prec)
                              "]"))))))).
Proof.
  intros Hne.
  destruct (median_percentile_50 Hne) as (med & p & Hmed & Hp & Hpm).
  destruct (@percentile_mono arr (5 # 2) 50 Hne)
    as (lo & p1 & Hlo & Hp1 & Hle1); try lra.
  destruct (@percentile_mono arr 50 (195 # 2) Hne)
    as (p2 & hi & Hp2 & Hhi & Hle2); try lra.
  rewrite Hp in Hp1, Hp2; injection Hp1 as <-; injection Hp2 as <-.
  exists lo, med, hi.
  split; [exact Hlo|]; split; [exact Hmed|]; split; [exact Hhi|].
  split; [now rewrite <- Hpm|]; split; [now rewrite <- Hpm|].
  unfold print_median_CI; rewrite Hlo, Hhi, Hmed; reflexivity.
Qed.

Lemma print_median_CI_brackets_median_witness :
  exists lo med hi,
    percentile [3; 1; 2] (5 # 2) = Ok lo /\
    median [3; 1; 2] = Finite med /\
    percentile [3; 1; 2] (195 # 2) = Ok hi /\
    lo <= med /\ med <= hi /\
    print_median_CI [3; 1; 2] 1
    = Ok (append "Median: "
            (append (truncate_number (Finite med) 1)
               (append newline
                  (append "CI: ["
                     (append (truncate_number (Finite lo) 1)
                        (append ", "
                           (append (truncate_number (Finite hi) 1)
                              "]"))))))).
Proof.
  apply (@print_median_CI_brackets_median [3; 1; 2] 1%nat).
  discriminate.
Defined.

End Label.

(** The red line of the growth-rate panels lies no later than the last
    data day minus the smallest sampled delay and no earlier than that day
    minus the largest one; with no delay samples [np.percentile] raises
    [IndexError]. *)
Theorem delay_marker_within
    (epoch : Z) (date_data_end : Datetime.datetime)
    (delay : list Q) (lo hi : Q) :
  (delay = [] ->
   delay_marker epoch date_data_end delay = Raise IndexError) /\
  (delay <> [] ->
   Forall (fun x => lo <= x /\ x <= hi) delay ->
   exists line,
     delay_marker epoch date_data_end delay = Ok line /\
     Datetime.date2num epoch date_data_end - hi <= line /\
     line <= Datetime.date2num epoch date_data_end - lo).
Proof.
  split.
  - intros ->; reflexivity.
  - intros Hne Hall.
    destruct (@percentile_within delay 75 lo hi Hne) as (p & Hp & Hlo & Hhi);
      try lra; [exact Hall|].
    unfold delay_marker; rewrite Hp; cbn [bind].
    eexists; split; [reflexivity|].
    split; lra.
Qed.

Lemma delay_marker_within_witness :
  delay_marker 0 (date_data_begin + 2 * Datetime.us_per_day)%Z []
  = Raise IndexError /\
  exists line,
    delay_marker 0 (date_data_begin + 2 * Datetime.us_per_day)%Z [5; 7; 9]
    = Ok line /\
    Datetime.date2num 0 (date_data_begin + 2 * Datetime.us_per_day)%Z - 9
    <= line /\
    line
    <= Datetime.date2num 0 (date_data_begin + 2 * Datetime.us_per_day)%Z - 5.
Proof.
  split.
  - apply (proj1 (@delay_marker_within 0
                    (date_data_begin + 2 * Datetime.us_per_day)%Z [] 0 0)).
    reflexivity.
  - apply (proj2 (@delay_marker_within 0
                    (date_data_begin + 2 * Datetime.us_per_day)%Z
                    [5; 7; 9] 5 9)).
    + discriminate.
    + repeat constructor; cbn; discriminate.
Defined.

(** ** The simulation days and the growth-rate axis *)

Section Simulation.

Local Open Scope Z_scope.

Lemma toordinal_add_days (d : Datetime.datetime) (n : Z) :
  Datetime.toordinal (d + n * Datetime.us_per_day) = Datetime.toordinal d + n.
Proof.
  unfold Datetime.toordinal.
  apply Z.div_add; unfold Datetime.us_per_day; lia.
Qed.

Lemma num_days_sim_value (date_data_end : Datetime.datetime) :
  Datetime.in_range (date_data_end + num_days_futu * Datetime.us_per_day)
  = true ->
  num_days_sim date_data_end
  = Ok (diff_to_0 date_data_end + num_days_futu).
Proof.
  intros Hr; unfold num_days_sim, date_end_sim.
  change (Datetime.timedelta_of_days (FNum (inject_Z num_days_futu)))
    with (@Ok Datetime.timedelta (num_days_futu * Datetime.us_per_day)).
  cbn [bind]; unfold Datetime.add; rewrite Hr; cbn [bind].
  f_equal.
  unfold Datetime.days, Datetime.diff, diff_to_0.
  rewrite num_days_data_ordinal, date_begin_sim_ordinal.
  replace (date_data_end + num_days_futu * Datetime.us_per_day
           - 737469 * Datetime.us_per_day)
    with (date_data_end + (num_days_futu - 737469) * Datetime.us_per_day)
    by ring.
  fold (Datetime.toordinal
          (date_data_end + (num_days_futu - 737469) * Datetime.us_per_day)).
  rewrite toordinal_add_days.
  unfold num_days_futu, diff_data_sim; ring.
Qed.

Lemma num_days_sim_overflow (date_data_end : Datetime.datetime) :
  Datetime.in_range (date_data_end + num_days_futu * Datetime.us_per_day)
  = false ->
  num_days_sim date_data_end = Raise OverflowError.
Proof.
  intros Hr; unfold num_days_sim, date_end_sim.
  change (Datetime.timedelta_of_days (FNum (inject_Z num_days_futu)))
    with (@Ok Datetime.timedelta (num_days_futu * Datetime.us_per_day)).
  cbn [bind]; unfold Datetime.add; now rewrite Hr.
Qed.

Lemma date2num_shifted_twice (epoch a c1 c2 b : Z) :
  a + c1 + c2 = b ->
  (Datetime.date2num epoch (a * Datetime.us_per_day)%Z
   + inject_Z c1 + inject_Z c2
   == Datetime.date2num epoch (b * Datetime.us_per_day)%Z)%Q.
Proof.
  intros <-; unfold Datetime.date2num.
  rewrite !inject_Z_mult, !inject_Z_plus.
  unfold Datetime.us_per_day; field.
Qed.

End Simulation.

(** The simulation covers the lead-in, the data and the forecast:
    [num_days_sim] is [diff_to_0 + num_days_futu] whenever [date_end_sim]
    exists (and the settings fail with [OverflowError] when it does not).
    The date axis of the growth rate then has one date per simulated day,
    date [k] being the day [k + 1] days after [date_begin_sim], provided
    the data end no later than 737469 days after the start of the
    simulation. *)
Theorem growth_rate_axis_covers_simulation
    (epoch : Z) (date_data_end : Datetime.datetime) :
  Datetime.in_range
    (date_data_end + num_days_futu * Datetime.us_per_day)%Z = true ->
  (diff_to_0 date_data_end <= 737469)%Z ->
  exists dates,
    num_days_sim date_data_end
    = Ok (diff_to_0 date_data_end + num_days_futu)%Z /\
    lambda_mpl_dates epoch date_data_end = Ok (Array dates) /\
    List.length dates
    = Z.to_nat (diff_to_0 date_data_end + num_days_futu) /\
    forall k t, nth_error dates k = Some t ->
      t == Datetime.date2num epoch
             (date_begin_sim + (Z.of_nat k + 1) * Datetime.us_per_day)%Z.
Proof.
  intros Hr Hd.
  pose proof (num_days_sim_value date_data_end Hr) as Hn.
  unfold lambda_mpl_dates; rewrite Hn; cbn [bind].
  rewrite conv_time_to_mpl_dates_array
    by (apply arange_representable; unfold num_days_futu; lia).
  cbn [bind mpl_add].
  eexists; split; [reflexivity|]; split; [reflexivity|]; split.
  - unfold add_int; rewrite !length_map, arange_length; f_equal; lia.
  - intros k t Hk; unfold add_int in Hk.
    apply nth_error_map_Some in Hk; destruct Hk as (x & Hx & ->).
    apply nth_error_map_Some in Hx; destruct Hx as (y & Hy & ->).
    apply nth_error_map_Some in Hy; destruct Hy as (n & Hoff & ->).
    apply arange_nth_error in Hoff; subst n.
    rewrite date_begin_sim_ordinal.
    replace (737469 * Datetime.us_per_day
             + (Z.of_nat k + 1) * Datetime.us_per_day)%Z
      with ((737470 + Z.of_nat k) * Datetime.us_per_day)%Z by ring.
    apply date2num_shifted_twice.
    unfold diff_to_0, diff_data_sim in *; lia.
Qed.

Lemma growth_rate_axis_covers_simulation_witness :
  exists dates,
    num_days_sim (date_data_begin + 2 * Datetime.us_per_day)%Z
    = Ok (diff_to_0 (date_data_begin + 2 * Datetime.us_per_day)%Z
          + num_days_futu)%Z /\
    lambda_mpl_dates 0 (date_data_begin + 2 * Datetime.us_per_day)%Z
    = Ok (Array dates) /\
    List.length dates
    = Z.to_nat (diff_to_0 (date_data_begin + 2 * Datetime.us_per_day)%Z
                + num_days_futu) /\
    forall k t, nth_error dates k = Some t ->
      t == Datetime.date2num 0
             (date_begin_sim + (Z.of_nat k + 1) * Datetime.us_per_day)%Z.
Proof.
  apply (@growth_rate_axis_covers_simulation 0
           (date_data_begin + 2 * Datetime.us_per_day)%Z).
  - reflexivity.
  - vm_compute; discriminate.
Defined.

(** ** The new-cases panel of [create_figure_0] *)

Section Figure0New.

Lemma transpose_rows_nonempty (F : matrix) :
  Forall (fun r => r <> []) (transpose F).
Proof.
  destruct F as [|row F]; [constructor|].
  eapply Forall_impl; [|apply transpose_row_lengths].
  intros r Hr ->; discriminate.
Qed.

Lemma getitem_time2 (A : Type) (f : Z -> A) :
  getitem (map f (arange 0 (num_days_futu + 1))) (-10) = Ok (f 19%Z).
Proof. reflexivity. Qed.

Variables (epoch : Z) (date_data_end : Datetime.datetime).
Variables (cases_obs : list Z) (trace_new_cases scen_new_cases : matrix).

Lemma create_figure_0_new_dates :
  (2 <= len_cases_obs cases_obs <= 737470)%Z ->
  exists r,
    create_figure_0_new epoch date_data_end cases_obs
      trace_new_cases scen_new_cases = Ok r /\
    f0n_start_date r
    = Datetime.date2num epoch
        ((737469 + (- len_cases_obs cases_obs + 2)) * Datetime.us_per_day)%Z
      + inject_Z diff_data_sim + inject_Z (num_days_data date_data_end) /\
    f0n_end_date r
    = Datetime.date2num epoch ((737469 + 19) * Datetime.us_per_day)%Z
      + inject_Z diff_data_sim + inject_Z (num_days_data date_data_end).
Proof.
  intros [Hlo Hhi].
  unfold create_figure_0_new.
  rewrite conv_time_to_mpl_dates_array by (apply arange_representable; lia).
  cbn [bind].
  rewrite (arange_cons (a := - len_cases_obs cases_obs + 2) (b := 1))
    by lia.
  unfold mpl_add at 1 2; unfold mpl_getitem at 1; unfold add_int at 1 2.
  rewrite !map_cons, getitem_first.
  cbn [bind].
  destruct (@percentile_axis0_nth
              (cols_to (num_days_data date_data_end) trace_new_cases) (5 # 2))
    as (lo & -> & _); try lra.
  destruct (@percentile_axis0_nth
              (cols_to (num_days_data date_data_end) trace_new_cases)
              (195 # 2))
    as (hi & -> & _); try lra.
  cbn [bind].
  rewrite conv_time_to_mpl_dates_array
    by (apply arange_representable; unfold num_days_futu; lia).
  cbn [bind].
  unfold mpl_add at 1 2; unfold mpl_getitem at 1; unfold add_int at 1 2.
  rewrite !map_map, getitem_time2.
  cbn [bind].
  destruct (@percentile_axis_last_ok
              (transpose
                 (cols_from (num_days_data date_data_end) scen_new_cases))
              (5 # 2)) as [lower ->];
    [lra|lra|apply transpose_rows_nonempty|].
  destruct (@percentile_axis_last_ok
              (transpose
                 (cols_from (num_days_data date_data_end) scen_new_cases))
              (195 # 2)) as [upper ->];
    [lra|lra|apply transpose_rows_nonempty|].
  cbn [bind mpl_slice_from].
  eexists; split; [reflexivity|].
  split; reflexivity.
Qed.

Lemma create_figure_0_new_short :
  (len_cases_obs cases_obs <= 1)%Z ->
  create_figure_0_new epoch date_data_end cases_obs
    trace_new_cases scen_new_cases = Raise IndexError.
Proof.
  intros Hlen.
  unfold create_figure_0_new.
  rewrite conv_time_to_mpl_dates_array by (apply arange_representable; lia).
  cbn [bind].
  assert (Hempty : arange (- len_cases_obs cases_obs + 2) 1 = []).
  { unfold arange.
    replace (Z.to_nat (1 - (- len_cases_obs cases_obs + 2))) with 0%nat by lia.
    reflexivity. }
  rewrite Hempty; reflexivity.
Qed.

End Figure0New.

Lemma date2num_next_day (epoch k : Z) :
  Datetime.date2num epoch ((k + 1) * Datetime.us_per_day)%Z
  == Datetime.date2num epoch (k * Datetime.us_per_day)%Z + 1.
Proof.
  unfold Datetime.date2num.
  rewrite !inject_Z_mult, inject_Z_plus.
  unfold Datetime.us_per_day; field.
Qed.

(** The two figures start their date axis on the same day, the day of the
    second observation, but not end it on the same day: the end date of
    [create_figure_0], [mpl_dates_fut[-10]], is one day after the end date
    of [create_figure_3_timeseries], the date of [num_days_futu - 10]. *)
Theorem figure_intervals_start_together
    (epoch : Z) (date_data_end : Datetime.datetime) (cases_obs : list Z)
    (trace_new_cases scen_new_cases new_cases : matrix) :
  (2 <= len_cases_obs cases_obs <= 737469)%Z ->
  exists r0 r3 s3 e3,
    create_figure_0_new epoch date_data_end cases_obs
      trace_new_cases scen_new_cases = Ok r0 /\
    create_figure_3_timeseries epoch date_data_end cases_obs new_cases
    = Ok r3 /\
    start_date r3 = Scalar s3 /\
    end_date r3 = Scalar e3 /\
    f0n_start_date r0 == s3 /\
    f0n_end_date r0 == e3 + 1.
Proof.
  intros [Hlo Hhi].
  destruct cases_obs as [|first t] eqn:E; [cbn in Hlo; lia|].
  rewrite <- E in *.
  assert (Hfirst : getitem cases_obs 0 = Ok first)
    by (rewrite E; apply getitem_first).
  destruct (@create_figure_0_new_dates epoch date_data_end cases_obs
              trace_new_cases scen_new_cases) as (r0 & Hr0 & Hs0 & He0);
    [lia|].
  destruct (@create_figure_3_timeseries_dates epoch date_data_end cases_obs
              new_cases first Hfirst Hhi)
    as (r3 & Hr3 & Hs3 & He3 & _).
  exists r0, r3; do 2 eexists.
  split; [exact Hr0|]; split; [exact Hr3|].
  split; [rewrite Hs3; reflexivity|].
  split; [rewrite He3; reflexivity|].
  rewrite Hs0, He0; unfold diff_to_0; split.
  - rewrite inject_Z_plus; ring.
  - change ((737469 + 19) * Datetime.us_per_day)%Z
      with ((737469 + (num_days_futu - 10) + 1) * Datetime.us_per_day)%Z.
    rewrite (date2num_next_day epoch (737469 + (num_days_futu - 10))).
    rewrite inject_Z_plus; ring.
Qed.

Lemma figure_intervals_start_together_witness :
  exists r0 r3 s3 e3,
    create_figure_0_new 0 (date_data_begin + 2 * Datetime.us_per_day)%Z
      [100; 110; 125]%Z [[10; 15; 20]] [[11; 14; 22]] = Ok r0 /\
    create_figure_3_timeseries 0 (date_data_begin + 2 * Datetime.us_per_day)%Z
      [100; 110; 125]%Z [[10; 15; 20]] = Ok r3 /\
    start_date r3 = Scalar s3 /\
    end_date r3 = Scalar e3 /\
    f0n_start_date r0 == s3 /\
    f0n_end_date r0 == e3 + 1.
Proof.
  apply (@figure_intervals_start_together 0
           (date_data_begin + 2 * Datetime.us_per_day)%Z [100; 110; 125]%Z).
  unfold len_cases_obs; cbn; lia.
Defined.

(** A single observation is enough for [create_figure_3_timeseries], which
    returns with no observed new cases and one date, but not for the
    new-cases panel of [create_figure_0]: its date array is empty and
    [mpl_dates[0]] raises [IndexError]. *)
Theorem single_observation
    (epoch : Z) (date_data_end : Datetime.datetime) (c : Z)
    (trace_new_cases scen_new_cases new_cases : matrix) :
  create_figure_0_new epoch date_data_end [c]
    trace_new_cases scen_new_cases = Raise IndexError /\
  exists r date,
    create_figure_3_timeseries epoch date_data_end [c] new_cases = Ok r /\
    new_c_obsd r = [] /\
    mpl_dates_past r = Array [date].
Proof.
  split.
  - apply create_figure_0_new_short; unfold len_cases_obs; cbn; lia.
  - destruct (@create_figure_3_timeseries_dates epoch date_data_end [c]
                new_cases c (getitem_first c []))
      as (r & Hr & _ & _ & _ & Hpast & _ & Hobsd & _);
      [unfold len_cases_obs; cbn; lia|].
    exists r; eexists; split; [exact Hr|].
    split; [rewrite Hobsd; reflexivity|].
    rewrite Hpast; reflexivity.
Qed.

(** ** The forecast dates, and the size of the cumulative series *)

Section Forecast3.

Lemma shifted_dates_nth
    (epoch : Z) (date_data_end : Datetime.datetime) (a b : Z)
    (k : nat) (t : Q) :
  nth_error
    (add_int
       (map (fun n => Datetime.date2num epoch
                        ((737469 + n) * Datetime.us_per_day)%Z)
          (arange a b))
       (diff_to_0 date_data_end)) k = Some t ->
  t == Datetime.date2num epoch
         ((Datetime.toordinal date_data_end + (a + Z.of_nat k))
          * Datetime.us_per_day)%Z.
Proof.
  intros Hk; unfold add_int in Hk.
  apply nth_error_map_Some in Hk; destruct Hk as (x & Hx & ->).
  apply nth_error_map_Some in Hx; destruct Hx as (n & Hn & ->).
  apply arange_nth_error in Hn; subst n.
  apply shifted_date_number.
Qed.

Lemma getitem_last_nth_error (A : Type) (l : list A) (x : A) :
  getitem l (-1) = Ok x -> nth_error l (List.length l - 1) = Some x.
Proof.
  unfold getitem; cbn [Z.ltb Z.compare].
  destruct (_ && _) eqn:E; [|discriminate].
  apply andb_true_iff in E; destruct E as [E1 E2].
  apply Z.leb_le in E1; apply Z.ltb_lt in E2.
  replace (Z.to_nat (-1 + Z.of_nat (List.length l)))
    with (List.length l - 1)%nat by lia.
  destruct (nth_error l _); [congruence|discriminate].
Qed.

Lemma sum_firstn_step (acc x : Q) (t : list Q) (k : nat) :
  acc + x + fold_right Qplus 0 (firstn k t)
  == acc + fold_right Qplus 0 (firstn (S k) (x :: t)).
Proof. cbn [firstn fold_right]; ring. Qed.

(** Entry [k] of a running sum continued from [acc] is [acc] plus the first
    [k + 1] summands. *)
Lemma cumsum_from_nth (l : list Q) :
  forall acc k,
    (k < List.length l)%nat ->
    nth k (cumsum_from acc l) 0
    == acc + fold_right Qplus 0 (firstn (S k) l).
Proof.
  induction l as [|x t IH]; intros acc k Hk; [cbn in Hk; lia|].
  cbn [cumsum_from dadd float64].
  destruct k as [|k].
  - cbn [nth firstn fold_right]; ring.
  - cbn [nth]; rewrite IH by (cbn in Hk; lia).
    apply sum_firstn_step.
Qed.

Lemma anchored_row_closed_form (c : Z) (new : list Q) (k : nat) :
  (k < List.length new)%nat ->
  exists w,
    nth_error (add_int (cumsum (insert0 0 new)) c) (S k) = Some w /\
    w == inject_Z c + fold_right Qplus 0 (firstn (S k) new).
Proof.
  intros Hk; unfold insert0, add_int; cbn [cumsum map nth_error].
  rewrite nth_error_map.
  rewrite (nth_error_nth' (cumsum_from 0 new) 0)
    by (rewrite cumsum_from_length; exact Hk).
  eexists; split; [reflexivity|].
  rewrite cumsum_from_nth by exact Hk; ring.
Qed.

Lemma cumsum_from_above (l : list Q) :
  forall acc,
    Forall (fun x => 0 <= x) l ->
    Forall (Qle acc) (cumsum_from acc l).
Proof.
  induction l as [|x t IH]; intros acc Hl; cbn; [constructor|].
  apply Forall_cons_iff in Hl; destruct Hl as [Hx Ht].
  constructor; [lra|].
  eapply Forall_impl; [|apply (IH (acc + x) Ht)].
  cbn; intros y Hy; lra.
Qed.

Lemma cumsum_from_sorted (l : list Q) :
  forall acc,
    Forall (fun x => 0 <= x) l ->
    StronglySorted Qle (cumsum_from acc l).
Proof.
  induction l as [|x t IH]; intros acc Hl; cbn; [constructor|].
  apply Forall_cons_iff in Hl; destruct Hl as [Hx Ht].
  constructor; [now apply IH|now apply cumsum_from_above].
Qed.

Lemma add_int_sorted (c : Z) (l : list Q) :
  StronglySorted Qle l -> StronglySorted Qle (add_int l c).
Proof.
  unfold add_int; induction 1 as [|x l Hl IH Hx]; cbn; constructor;
    [exact IH|].
  apply Forall_map; eapply Forall_impl; [|exact Hx].
  cbn; intros y Hy; lra.
Qed.

Lemma anchored_row_sorted (c : Z) (new : list Q) :
  Forall (fun x => 0 <= x) new ->
  StronglySorted Qle (add_int (cumsum (insert0 0 new)) c).
Proof.
  intros Hnew; apply add_int_sorted.
  unfold insert0; cbn [cumsum].
  constructor; [now apply cumsum_from_sorted|now apply cumsum_from_above].
Qed.

Lemma anchored_rows_sorted (c : Z) (P : matrix) :
  Forall (Forall (fun x => 0 <= x)) P ->
  Forall (StronglySorted Qle)
    (add_int2 (cumsum_axis1 (insert0_axis1 0 P)) c).
Proof.
  unfold add_int2, cumsum_axis1, insert0_axis1.
  induction 1 as [|new P Hnew HP IH]; cbn [map]; constructor; [|exact IH].
  now apply anchored_row_sorted.
Qed.

Lemma slices_nonnegative (i : Z) (M : matrix) :
  Forall (Forall (fun x => 0 <= x)) M ->
  Forall (Forall (fun x => 0 <= x)) (cols_to i M) /\
  Forall (Forall (fun x => 0 <= x)) (cols_from i M).
Proof.
  unfold cols_to, cols_from; intros HM.
  split; apply Forall_map; (eapply Forall_impl; [|exact HM]);
    cbn; intros row Hrow; rewrite <- (slice_to_from i row) in Hrow;
    apply Forall_app in Hrow; tauto.
Qed.

End Forecast3.

(** The two date axes of [create_figure_3_timeseries] meet at the last data
    day: the forecast axis [mpl_dates_futu] starts with the date the
    observed axis [mpl_dates_past] ends with, date [k] of it is the day [k]
    days after [date_data_end], and [mpl_dates_futu[1:]], against which the
    forecast is plotted, has [num_days_futu] dates. *)
Theorem date_axes_meet
    (epoch : Z) (date_data_end : Datetime.datetime)
    (cases_obs : list Z) (new_cases : matrix) (first : Z) :
  getitem cases_obs 0 = Ok first ->
  (len_cases_obs cases_obs <= 737469)%Z ->
  exists r past futu lastp head,
    create_figure_3_timeseries epoch date_data_end cases_obs new_cases = Ok r /\
    mpl_dates_past r = Array past /\
    mpl_dates_futu r = Array futu /\
    List.length (slice_from 1 futu) = Z.to_nat num_days_futu /\
    (forall k t, nth_error futu k = Some t ->
       t == Datetime.date2num epoch
              ((Datetime.toordinal date_data_end + Z.of_nat k)
               * Datetime.us_per_day)%Z) /\
    getitem past (-1) = Ok lastp /\
    nth_error futu 0 = Some head /\
    lastp == head.
Proof.
  intros Hfirst Hlen.
  assert (Hpos : (1 <= List.length cases_obs)%nat).
  { pose proof (@getitem_nonempty _ cases_obs 0 first Hfirst) as Hne.
    destruct cases_obs; [contradiction|cbn; lia]. }
  destruct (@create_figure_3_timeseries_dates epoch date_data_end cases_obs
              new_cases first Hfirst Hlen)
    as (r & Hr & _ & _ & _ & Hpast & Hfutu & _).
  cbn [mpl_add] in Hpast, Hfutu.
  set (past := add_int _ _) in Hpast.
  set (futu := add_int _ _) in Hfutu.
  assert (Hplen : List.length past = List.length cases_obs).
  { unfold past, add_int; rewrite !length_map, arange_length.
    unfold len_cases_obs; lia. }
  destruct (@getitem_last _ past) as [lastp Hlastp].
  { intros Hnil; rewrite Hnil in Hplen; cbn in Hplen; lia. }
  assert (Hhead : exists head, nth_error futu 0 = Some head).
  { unfold futu; rewrite time_futu_unfold.
    unfold add_int; rewrite !map_cons; eexists; reflexivity. }
  destruct Hhead as [head Hhead].
  exists r, past, futu, lastp, head.
  split; [exact Hr|]; split; [exact Hpast|]; split; [exact Hfutu|].
  split.
  { unfold futu, add_int.
    rewrite slice_from_1_length, !length_map, arange_length.
    unfold num_days_futu; lia. }
  split.
  { intros k t Hk; apply shifted_dates_nth in Hk.
    now rewrite Z.add_0_l in Hk. }
  split; [exact Hlastp|]; split; [exact Hhead|].
  apply getitem_last_nth_error in Hlastp.
  apply shifted_dates_nth in Hlastp, Hhead.
  rewrite Hlastp, Hhead.
  match goal with
  | |- Datetime.date2num _ ?a == Datetime.date2num _ ?b =>
      replace a with b
        by (rewrite Hplen; unfold len_cases_obs; f_equal; lia)
  end.
  reflexivity.
Qed.

Lemma date_axes_meet_witness :
  exists r past futu lastp head,
    create_figure_3_timeseries 0 (date_data_begin + 2 * Datetime.us_per_day)%Z
      [100; 110; 125]%Z [[10; 15; 20]] = Ok r /\
    mpl_dates_past r = Array past /\
    mpl_dates_futu r = Array futu /\
    List.length (slice_from 1 futu) = Z.to_nat num_days_futu /\
    (forall k t, nth_error futu k = Some t ->
       t == Datetime.date2num 0
              ((Datetime.toordinal
                  (date_data_begin + 2 * Datetime.us_per_day)%Z
                + Z.of_nat k)
               * Datetime.us_per_day)%Z) /\
    getitem past (-1) = Ok lastp /\
    nth_error futu 0 = Some head /\
    lastp == head.
Proof.
  apply (@date_axes_meet 0 (date_data_begin + 2 * Datetime.us_per_day)%Z
           [100; 110; 125]%Z [[10; 15; 20]] 100%Z).
  - reflexivity.
  - unfold len_cases_obs; cbn; lia.
Defined.

(** The cumulative views of [create_figure_3_timeseries] in closed form:
    in the row of sample [s], entry [k + 1] of [cum_c_past] is the first
    observed count plus the first [k + 1] past draws of the sample, and
    entry [k + 1] of [cum_c_futu] is the last observed count plus its first
    [k + 1] future draws. *)
Theorem cumulative_views_closed_form
    (epoch : Z) (date_data_end : Datetime.datetime)
    (cases_obs : list Z) (new_cases : matrix)
    (first last : Z) (s : nat) (row : list Q) :
  getitem cases_obs 0 = Ok first ->
  getitem cases_obs (-1) = Ok last ->
  (len_cases_obs cases_obs <= 737469)%Z ->
  nth_error new_cases s = Some row ->
  exists r pastc futuc,
    create_figure_3_timeseries epoch date_data_end cases_obs new_cases = Ok r /\
    nth_error (cum_c_past r) s = Some pastc /\
    nth_error (cum_c_futu r) s = Some futuc /\
    (forall k,
       (k < List.length (slice_to (num_days_data date_data_end) row))%nat ->
       exists w,
         nth_error pastc (S k) = Some w /\
         w == inject_Z first
              + fold_right Qplus 0
                  (firstn (S k)
                     (slice_to (num_days_data date_data_end) row))) /\
    (forall k,
       (k < List.length (slice_from (num_days_data date_data_end) row))%nat ->
       exists w,
         nth_error futuc (S k) = Some w /\
         w == inject_Z last
              + fold_right Qplus 0
                  (firstn (S k)
                     (slice_from (num_days_data date_data_end) row))).
Proof.
  intros Hfirst Hlast Hlen Hrow.
  destruct (@create_figure_3_timeseries_ok epoch date_data_end cases_obs
              new_cases first last Hfirst Hlast Hlen)
    as (sd & ed & md & past & Hr).
  do 3 eexists; split; [exact Hr|].
  cbn [cum_c_past cum_c_futu].
  split; [|split; [|split]].
  - apply nth_error_anchored.
    unfold cols_to; rewrite nth_error_map, Hrow; reflexivity.
  - apply nth_error_anchored.
    unfold cols_from; rewrite nth_error_map, Hrow; reflexivity.
  - intros k Hk; now apply anchored_row_closed_form.
  - intros k Hk; now apply anchored_row_closed_form.
Qed.

Lemma cumulative_views_closed_form_witness :
  exists r pastc futuc,
    create_figure_3_timeseries 0 (date_data_begin + 1 * Datetime.us_per_day)%Z
      [100; 110]%Z [[10; 15; 20]; [11; 14; 22]] = Ok r /\
    nth_error (cum_c_past r) 1 = Some pastc /\
    nth_error (cum_c_futu r) 1 = Some futuc /\
    (forall k,
       (k < List.length
              (slice_to
                 (num_days_data (date_data_begin + 1 * Datetime.us_per_day)%Z)
                 [11; 14; 22]))%nat ->
       exists w,
         nth_error pastc (S k) = Some w /\
         w == inject_Z 100
              + fold_right Qplus 0
                  (firstn (S k)
                     (slice_to
                        (num_days_data
                           (date_data_begin + 1 * Datetime.us_per_day)%Z)
                        [11; 14; 22]))) /\
    (forall k,
       (k < List.length
              (slice_from
                 (num_days_data (date_data_begin + 1 * Datetime.us_per_day)%Z)
                 [11; 14; 22]))%nat ->
       exists w,
         nth_error futuc (S k) = Some w /\
         w == inject_Z 110
              + fold_right Qplus 0
                  (firstn (S k)
                     (slice_from
                        (num_days_data
                           (date_data_begin + 1 * Datetime.us_per_day)%Z)
                        [11; 14; 22]))).
Proof.
  apply (@cumulative_views_closed_form 0
           (date_data_begin + 1 * Datetime.us_per_day)%Z [100; 110]%Z
           [[10; 15; 20]; [11; 14; 22]] 100%Z 110%Z 1 [11; 14; 22]).
  - reflexivity.
  - reflexivity.
  - unfold len_cases_obs; cbn; lia.
  - reflexivity.
Defined.

(** When no draw of the trace is negative, the cumulative views of
    [create_figure_3_timeseries] never decrease along the days: in every
    sample row of [cum_c_past] and of [cum_c_futu] each entry is at most
    every later one, so the fit stays at or above the first observed count
    and the forecast at or above the last. *)
Theorem cumulative_views_nondecreasing
    (epoch : Z) (date_data_end : Datetime.datetime)
    (cases_obs : list Z) (new_cases : matrix) (first : Z) :
  getitem cases_obs 0 = Ok first ->
  (len_cases_obs cases_obs <= 737469)%Z ->
  Forall (Forall (fun x => 0 <= x)) new_cases ->
  exists r,
    create_figure_3_timeseries epoch date_data_end cases_obs new_cases = Ok r /\
    Forall (StronglySorted Qle) (cum_c_past r) /\
    Forall (StronglySorted Qle) (cum_c_futu r).
Proof.
  intros Hfirst Hlen Hpos.
  destruct (getitem_last (@getitem_nonempty _ cases_obs 0 first Hfirst))
    as [last Hlast].
  destruct (@create_figure_3_timeseries_ok epoch date_data_end cases_obs
              new_cases first last Hfirst Hlast Hlen)
    as (sd & ed & md & past & Hr).
  destruct (slices_nonnegative (num_days_data date_data_end) Hpos)
    as [Hto Hfrom].
  eexists; split; [exact Hr|].
  cbn [cum_c_past cum_c_futu].
  split; now apply anchored_rows_sorted.
Qed.

Lemma cumulative_views_nondecreasing_witness :
  exists r,
    create_figure_3_timeseries 0 (date_data_begin + 1 * Datetime.us_per_day)%Z
      [100; 110]%Z [[10; 15; 20]; [11; 0; 22]] = Ok r /\
    Forall (StronglySorted Qle) (cum_c_past r) /\
    Forall (StronglySorted Qle) (cum_c_futu r).
Proof.
  apply (@cumulative_views_nondecreasing 0
           (date_data_begin + 1 * Datetime.us_per_day)%Z [100; 110]%Z
           [[10; 15; 20]; [11; 0; 22]] 100%Z).
  - reflexivity.
  - unfold len_cases_obs; cbn; lia.
  - repeat constructor; cbn; discriminate.
Defined.

(** ** The 95% bands of the new-cases panel *)

Section Bands.

Lemma percentile_band (a : list Q) :
  a <> [] ->
  exists lo med hi,
    percentile a (5 # 2) = Ok lo /\
    median a = Finite med /\
    percentile a (195 # 2) = Ok hi /\
    lo <= med /\ med <= hi.
Proof.
  intros Hne.
  destruct (median_percentile_50 Hne) as (med & p & Hmed & Hp & Hpm).
  destruct (@percentile_mono a (5 # 2) 50 Hne)
    as (lo & p1 & Hlo & Hp1 & Hle1); try lra.
  destruct (@percentile_mono a 50 (195 # 2) Hne)
    as (p2 & hi & Hp2 & Hhi & Hle2); try lra.
  rewrite Hp in Hp1, Hp2; injection Hp1 as <-; injection Hp2 as <-.
  exists lo, med, hi; repeat split; try assumption; now rewrite <- Hpm.
Qed.

Lemma percentile_axis_last_nth (T : matrix) (q : Q) :
  0 <= q -> q <= 100 ->
  Forall (fun r => r <> []) T ->
  exists ps,
    percentile_axis_last T q = Ok ps /\
    forall k row, nth_error T k = Some row ->
      exists p, nth_error ps k = Some p /\ percentile row q = Ok p.
Proof.
  intros H0 H100 HT.
  apply mapM_nth.
  rewrite Forall_forall in HT; intros r Hr.
  eexists; apply percentile_ok; auto.
Qed.

Variables (epoch : Z) (date_data_end : Datetime.datetime).
Variables (cases_obs : list Z) (trace_new_cases scen_new_cases : matrix).

Lemma create_figure_0_new_bands :
  (2 <= len_cases_obs cases_obs <= 737470)%Z ->
  exists r fit_lo fit_hi lower upper,
    create_figure_0_new epoch date_data_end cases_obs
      trace_new_cases scen_new_cases = Ok r /\
    f0n_fit_percentiles r = (fit_lo, fit_hi) /\
    percentile_axis0
      (cols_to (num_days_data date_data_end) trace_new_cases) (5 # 2)
    = Ok fit_lo /\
    percentile_axis0
      (cols_to (num_days_data date_data_end) trace_new_cases) (195 # 2)
    = Ok fit_hi /\
    f0n_fit_median r
    = median_axis0 (cols_to (num_days_data date_data_end) trace_new_cases) /\
    f0n_cases_futu r
    = transpose (cols_from (num_days_data date_data_end) scen_new_cases) /\
    f0n_median r
    = median_axis_last
        (transpose (cols_from (num_days_data date_data_end) scen_new_cases)) /\
    f0n_percentiles r = (lower, upper) /\
    percentile_axis_last
      (transpose (cols_from (num_days_data date_data_end) scen_new_cases))
      (5 # 2) = Ok lower /\
    percentile_axis_last
      (transpose (cols_from (num_days_data date_data_end) scen_new_cases))
      (195 # 2) = Ok upper.
Proof.
  intros [Hlo Hhi].
  unfold create_figure_0_new.
  rewrite conv_time_to_mpl_dates_array by (apply arange_representable; lia).
  cbn [bind].
  rewrite (arange_cons (a := - len_cases_obs cases_obs + 2) (b := 1))
    by lia.
  unfold mpl_add at 1 2; unfold mpl_getitem at 1; unfold add_int at 1 2.
  rewrite !map_cons, getitem_first.
  cbn [bind].
  destruct (@percentile_axis0_nth
              (cols_to (num_days_data date_data_end) trace_new_cases) (5 # 2))
    as (lo & Elo & _); try lra.
  destruct (@percentile_axis0_nth
              (cols_to (num_days_data date_data_end) trace_new_cases)
              (195 # 2))
    as (hi & Ehi & _); try lra.
  rewrite Elo, Ehi.
  cbn [bind].
  rewrite conv_time_to_mpl_dates_array
    by (apply arange_representable; unfold num_days_futu; lia).
  cbn [bind].
  unfold mpl_add at 1 2; unfold mpl_getitem at 1; unfold add_int at 1 2.
  rewrite !map_map, getitem_time2.
  cbn [bind].
  destruct (@percentile_axis_last_ok
              (transpose
                 (cols_from (num_days_data date_data_end) scen_new_cases))
              (5 # 2)) as [lower Elower];
    [lra|lra|apply transpose_rows_nonempty|].
  destruct (@percentile_axis_last_ok
              (transpose
                 (cols_from (num_days_data date_data_end) scen_new_cases))
              (195 # 2)) as [upper Eupper];
    [lra|lra|apply transpose_rows_nonempty|].
  rewrite Elower, Eupper.
  cbn [bind mpl_slice_from].
  eexists.
  exists lo, hi, lower, upper.
  split; [reflexivity|].
  cbn [f0n_fit_percentiles f0n_fit_median f0n_cases_futu f0n_median
       f0n_percentiles].
  repeat split; assumption.
Qed.

End Bands.

(** In the new-cases panel of [create_figure_0] both shaded bands hold
    their median line: at every past day the median of the fit lies
    between the 2.5th and the 97.5th percentile plotted around it, and at
    every forecast day so does the median of the forecast. *)
Theorem new_cases_bands_hold_median
    (epoch : Z) (date_data_end : Datetime.datetime) (cases_obs : list Z)
    (trace_new_cases scen_new_cases : matrix) :
  (2 <= len_cases_obs cases_obs <= 737470)%Z ->
  exists r fit_lo fit_hi lower upper,
    create_figure_0_new epoch date_data_end cases_obs
      trace_new_cases scen_new_cases = Ok r /\
    f0n_fit_percentiles r = (fit_lo, fit_hi) /\
    f0n_percentiles r = (lower, upper) /\
    (forall j m, nth_error (f0n_fit_median r) j = Some m ->
       exists lo med hi,
         m = Finite med /\
         nth_error fit_lo j = Some lo /\
         nth_error fit_hi j = Some hi /\
         lo <= med /\ med <= hi) /\
    (forall k m, nth_error (f0n_median r) k = Some m ->
       exists lo med hi,
         m = Finite med /\
         nth_error lower k = Some lo /\
         nth_error upper k = Some hi /\
         lo <= med /\ med <= hi).
Proof.
  intros Hlen.
  destruct (@create_figure_0_new_bands epoch date_data_end cases_obs
              trace_new_cases scen_new_cases Hlen)
    as (r & fit_lo & fit_hi & lower & upper & Hr & Hfp & Elo & Ehi & Hfm
        & Hcf & Hm & Hp & Elower & Eupper).
  exists r, fit_lo, fit_hi, lower, upper.
  split; [exact Hr|]; split; [exact Hfp|]; split; [exact Hp|].
  set (P := cols_to (num_days_data date_data_end) trace_new_cases) in *.
  set (T := transpose
              (cols_from (num_days_data date_data_end) scen_new_cases)) in *.
  split.
  - intros j m Hj; rewrite Hfm in Hj; unfold median_axis0 in Hj.
    apply nth_error_map_Some in Hj; destruct Hj as (j' & Hj' & ->).
    assert (Hlt : (j < List.length (seq 0 (ncols P)))%nat)
      by (apply nth_error_Some; congruence).
    rewrite length_seq in Hlt.
    rewrite (nth_error_seq0 Hlt) in Hj'; injection Hj' as <-.
    destruct (percentile_band (@column_nonempty j P Hlt))
      as (lo & med & hi & Hlo & Hmed & Hhi & Hle1 & Hle2).
    destruct (@percentile_axis0_nth P (5 # 2)) as (ps & Eps & Nps); try lra.
    destruct (@percentile_axis0_nth P (195 # 2)) as (qs & Eqs & Nqs); try lra.
    rewrite Elo in Eps; injection Eps as <-.
    rewrite Ehi in Eqs; injection Eqs as <-.
    destruct (Nps j Hlt) as (p & Hp1 & Hp2).
    destruct (Nqs j Hlt) as (q & Hq1 & Hq2).
    rewrite Hlo in Hp2; injection Hp2 as <-.
    rewrite Hhi in Hq2; injection Hq2 as <-.
    exists lo, med, hi; auto.
  - intros k m Hk; rewrite Hm in Hk; unfold median_axis_last in Hk.
    apply nth_error_map_Some in Hk; destruct Hk as (row & Hrow & ->).
    pose proof (transpose_rows_nonempty
                  (cols_from (num_days_data date_data_end) scen_new_cases))
      as Hne.
    fold T in Hne.
    assert (Hrne : row <> []).
    { rewrite Forall_forall in Hne; apply Hne.
      eapply nth_error_In; eassumption. }
    destruct (percentile_band Hrne)
      as (lo & med & hi & Hlo & Hmed & Hhi & Hle1 & Hle2).
    destruct (@percentile_axis_last_nth T (5 # 2)) as (ps & Eps & Nps);
      [lra|lra|exact Hne|].
    destruct (@percentile_axis_last_nth T (195 # 2)) as (qs & Eqs & Nqs);
      [lra|lra|exact Hne|].
    rewrite Elower in Eps; injection Eps as <-.
    rewrite Eupper in Eqs; injection Eqs as <-.
    destruct (Nps k row Hrow) as (p & Hp1 & Hp2).
    destruct (Nqs k row Hrow) as (q & Hq1 & Hq2).
    rewrite Hlo in Hp2; injection Hp2 as <-.
    rewrite Hhi in Hq2; injection Hq2 as <-.
    exists lo, med, hi; auto.
Qed.

Lemma new_cases_bands_hold_median_witness :
  exists r fit_lo fit_hi lower upper,
    create_figure_0_new 0 (date_data_begin + 2 * Datetime.us_per_day)%Z
      [100; 110; 125]%Z [[10; 15; 20]; [12; 13; 25]]
      [[11; 14; 22]; [9; 16; 21]] = Ok r /\
    f0n_fit_percentiles r = (fit_lo, fit_hi) /\
    f0n_percentiles r = (lower, upper) /\
    (forall j m, nth_error (f0n_fit_median r) j = Some m ->
       exists lo med hi,
         m = Finite med /\
         nth_error fit_lo j = Some lo /\
         nth_error fit_hi j = Some hi /\
         lo <= med /\ med <= hi) /\
    (forall k m, nth_error (f0n_median r) k = Some m ->
       exists lo med hi,
         m = Finite med /\
         nth_error lower k = Some lo /\
         nth_error upper k = Some hi /\
         lo <= med /\ med <= hi).
Proof.
  apply (@new_cases_bands_hold_median 0
           (date_data_begin + 2 * Datetime.us_per_day)%Z [100; 110; 125]%Z).
  unfold len_cases_obs; cbn; lia.
Defined.
